(** * The colour-light widget of the gateway UI

    A shallow embedding of [static/js/color-light.js]: the conversion of a
    colour temperature to an RGB string, the brightness test of
    [updateIcon], the property-update and set operations of the
    [ColorLight] widget with the requests they send, the displayed
    properties the constructor sets up, and the icon markup.

    JavaScript numbers are IEEE 754 binary64 values, so they are modelled
    by Rocq's primitive [float]; the arithmetic the widget does itself
    ([/], [-], [*], [+], comparisons) is the primitive one.  The built-ins
    [Math.log] and [Math.pow], which ECMAScript leaves
    implementation-approximated, are parameters of the development. *)

From Stdlib Require Import ZArith Floats String Ascii List Bool Lia.
From stdpp Require Import base option gmap strings.

Set Warnings "-inexact-float".
#[local] Open Scope string_scope.
#[local] Open Scope Z_scope.

(** ** The JavaScript built-ins the widget calls *)

Module JS.

(** The values a property, a payload entry or a response field can hold.
    [JObj] stands for any object or array; nothing here looks inside one.
    A string is the sequence of its code units, one [ascii] each: the
    strings of the model are those whose code units are all below 256. *)
Inductive value : Type :=
  | JUndefined
  | JNull
  | JBool (b : bool)
  | JNum (x : float)
  | JStr (s : string)
  | JObj (ref : nat).

(** [ToBoolean]: what [if (v)], [!v] and [v ? a : b] test. *)
Definition truthy (v : value) : bool :=
  match v with
  | JUndefined | JNull => false
  | JBool b => b
  | JNum x => negb (is_zero x || is_nan x)
  | JStr s => negb (String.eqb s "")
  | JObj _ => true
  end.

(** The Number nearest to an integer (exact below 2^53). *)
Definition Number_of_Z (z : Z) : float :=
  SF2Prim (binary_normalize prec emax z 0 false).

(** [Math.max] and [Math.min] of two arguments: NaN if either is NaN, and
    [+0] counts as larger than [-0]. *)
Definition Math_max (a b : float) : float :=
  if is_nan a || is_nan b then nan
  else if (a <? b)%float then b
  else if (b <? a)%float then a
  else if get_sign a then b else a.

Definition Math_min (a b : float) : float :=
  if is_nan a || is_nan b then nan
  else if (b <? a)%float then b
  else if (a <? b)%float then a
  else if get_sign a then a else b.

(** The result of [Math.round] is an integral Number, NaN or an infinity;
    it is kept as such.  Both zeros are [IInt 0]: they print alike. *)
Inductive integral : Type :=
  | INaN
  | IInfinity (neg : bool)
  | IInt (z : Z).

(** [Math.round x]: the integer nearest to [x], ties towards +infinity,
    that is the floor of [x + 1/2] computed exactly on [x = m * 2^e]. *)
Definition Math_round (x : float) : integral :=
  match Prim2SF x with
  | S754_nan => INaN
  | S754_infinity s => IInfinity s
  | S754_zero _ => IInt 0
  | S754_finite s m e =>
      let n := cond_Zopp s (Zpos m) in
      if 0 <=? e then IInt (n * 2 ^ e)
      else IInt ((2 * n + 2 ^ (- e)) / 2 ^ (1 - e))
  end.

(** Digits of a natural number in a radix up to 36, lowercase, without
    padding: [Number.prototype.toString(radix)] on a non-negative integer. *)
Definition digit_char (d : N) : ascii :=
  if (d <? 10)%N then ascii_of_N (48 + d) else ascii_of_N (87 + d).

Fixpoint radix_digits (fuel : nat) (radix n : N) (acc : string) : string :=
  match fuel with
  | O => acc
  | S fuel' =>
      let acc' := String (digit_char (n mod radix)) acc in
      if (n / radix =? 0)%N then acc'
      else radix_digits fuel' radix (n / radix) acc'
  end.

Definition N_toString (radix n : N) : string :=
  radix_digits (S (N.to_nat (N.log2 n))) radix n "".

Definition toString (radix : N) (x : integral) : string :=
  match x with
  | INaN => "NaN"
  | IInfinity neg => if neg then "-Infinity" else "Infinity"
  | IInt z => (if z <? 0 then "-" else "") ++ N_toString radix (Z.abs_N z)
  end.

(** [parseInt(string, radix)] for an explicit radix in 2..36 (the widget
    passes 10 and 16): leading white space and a sign are skipped, with
    radix 16 a [0x] prefix too; the longest prefix of digits of the radix is
    the value; NaN when there is no digit.  The white space and line
    terminators among the code units below 256 are TAB, LF, VT, FF, CR,
    SPACE and NO-BREAK SPACE. *)
Definition is_white_space (c : ascii) : bool :=
  let n := N_of_ascii c in
  ((9 <=? n) && (n <=? 13) || (n =? 32) || (n =? 160))%N.

Fixpoint trim_start (s : string) : string :=
  match s with
  | String c s' => if is_white_space c then trim_start s' else s
  | EmptyString => s
  end.

Definition digit_value (c : ascii) : option N :=
  let n := N_of_ascii c in
  if ((48 <=? n) && (n <=? 57))%N then Some (n - 48)%N
  else if ((97 <=? n) && (n <=? 122))%N then Some (n - 87)%N
  else if ((65 <=? n) && (n <=? 90))%N then Some (n - 55)%N
  else None.

Fixpoint parse_digits (radix : N) (s : string) (acc : option N) : option N :=
  match s with
  | EmptyString => acc
  | String c s' =>
      match digit_value c with
      | Some d =>
          if (d <? radix)%N
          then parse_digits radix s' (Some (default 0 acc * radix + d)%N)
          else acc
      | None => acc
      end
  end.

Definition strip_sign (s : string) : bool * string :=
  match s with
  | String "-" r => (true, r)
  | String "+" r => (false, r)
  | _ => (false, s)
  end.

Definition strip_hex_prefix (s : string) : string :=
  match s with
  | String "0" (String "x" r) => r
  | String "0" (String "X" r) => r
  | _ => s
  end.

Definition parseInt (s : string) (radix : N) : float :=
  let '(neg, s1) := strip_sign (trim_start s) in
  let s2 := if (radix =? 16)%N then strip_hex_prefix s1 else s1 in
  match parse_digits radix s2 None with
  | None => nan
  | Some n =>
      let x := Number_of_Z (Z.of_N n) in
      if neg then (- x)%float else x
  end.

(** [String.prototype.substr(start, length)] for non-negative arguments. *)
Definition substr (s : string) (start len : nat) : string :=
  String.substring start len s.

End JS.

Import JS.

(** ** ColorModel: colour temperature to RGB, and the brightness test *)

Section ColorModel.

(** [Math.log] and [Math.pow] of the host engine. *)
Variable Math_log : float -> float.
Variable Math_pow : float -> float -> float.

(** [ColorLight.prototype.colorTemperatureToRGB]; the argument is the
    Number that [temperature /= 100] converts its operand to. *)
Definition colorTemperatureToRGB (temperature : float) : string :=
  let temperature := (temperature / 100)%float in
  let r :=
    if (temperature <=? 66)%float then 255%float
    else
      let r := (temperature - 60)%float in
      let r := (329.698727446 * Math_pow r (-0.1332047592))%float in
      let r := Math_max r 0 in
      Math_min r 255 in
  let g :=
    if (temperature <=? 66)%float then
      let g := temperature in
      (99.4708025861 * Math_log g - 161.1195681661)%float
    else
      let g := (temperature - 60)%float in
      (288.1221695283 * Math_pow g (-0.0755148492))%float in
  let g := Math_max g 0 in
  let g := Math_min g 255 in
  let b :=
    if (66 <=? temperature)%float then 255%float
    else if (temperature <=? 19)%float then 0%float
    else
      let b := (temperature - 10)%float in
      let b := (138.5177312231 * Math_log b - 305.0447927307)%float in
      let b := Math_max b 0 in
      Math_min b 255 in
  let r := toString 16 (Math_round r) in
  let g := toString 16 (Math_round g) in
  let b := toString 16 (Math_round b) in
  "#" ++ r ++ g ++ b.

End ColorModel.

(** The three channels [updateIcon] parses out of the icon colour, and its
    brightness test [r * 0.299 + g * 0.587 + b * 0.114 > 186]. *)
Definition luminance (r g b : float) : float :=
  (r * 0.299 + g * 0.587 + b * 0.114)%float.

Definition isBrightColor (iconColor : string) : bool :=
  let r := parseInt (substr iconColor 1 2) 16 in
  let g := parseInt (substr iconColor 3 2) 16 in
  let b := parseInt (substr iconColor 5 2) 16 in
  (186 <? luminance r g b)%float.

(** ** The widget *)

(** What a [throw] or a rejected promise carries. The text of a
    [TypeError] is the engine's; only its kind matters here. *)
Inductive exn : Type :=
  | TypeError (message : string)
  | Error (message : string)
  | Rejection (reason : string).

(** [`${error}`]: [Error.prototype.toString] gives the name alone when
    the message is empty, and otherwise the name, [": "] and the message. *)
Definition exn_toString (e : exn) : string :=
  match e with
  | TypeError m => if String.eqb m "" then "TypeError" else "TypeError: " ++ m
  | Error m => if String.eqb m "" then "Error" else "Error: " ++ m
  | Rejection r => r
  end.

(** The three elements the constructor looks up with [querySelector]:
    [colorLight] (its [style.background] and [classList]),
    [colorLightLabel] (its [textContent]) and [colorLightIconPath] (its
    [style.fill]). Each field holds what was last assigned to it. *)
Record Dom : Type := mkDom {
  background : string;
  classList : gset string;
  textContent : string;
  fill : value;
}.

(** The fields of [this] the methods read and write.
    - [displayedProperties] maps a displayed property to its [href]; its
      [detail] object is a collaborator defined elsewhere.
    - [properties] is the cache of property values, a plain object.
    - [rendered] is [None] when the format is ['svg']: the constructor returns
      before it looks the elements up.
    - [shownOn] is the on/off state the inherited [showOn]/[showOff] display.
    - [detailUpdates] lists the [detail.update()] calls made, latest first.
    - [console] lists the [console.error] lines, latest first. *)
Record ColorLight : Type := mkColorLight {
  format : string;
  displayedProperties : gmap string string;
  properties : gmap string value;
  rendered : option Dom;
  shownOn : bool;
  detailUpdates : list string;
  console : list string;
}.

Definition with_properties (p : gmap string value) (w : ColorLight) : ColorLight :=
  mkColorLight (format w) (displayedProperties w) p (rendered w) (shownOn w)
    (detailUpdates w) (console w).

Definition with_rendered (d : Dom) (w : ColorLight) : ColorLight :=
  mkColorLight (format w) (displayedProperties w) (properties w) (Some d)
    (shownOn w) (detailUpdates w) (console w).

Definition with_shownOn (b : bool) (w : ColorLight) : ColorLight :=
  mkColorLight (format w) (displayedProperties w) (properties w) (rendered w) b
    (detailUpdates w) (console w).

Definition with_detailUpdates (l : list string) (w : ColorLight) : ColorLight :=
  mkColorLight (format w) (displayedProperties w) (properties w) (rendered w)
    (shownOn w) l (console w).

Definition with_console (l : list string) (w : ColorLight) : ColorLight :=
  mkColorLight (format w) (displayedProperties w) (properties w) (rendered w)
    (shownOn w) (detailUpdates w) l.

(** *** Methods as state transformers that may throw *)

Inductive completion (A : Type) : Type :=
  | Normal (a : A)
  | Throw (e : exn).
Arguments Normal {A} a.
Arguments Throw {A} e.

(** A method body: from the widget before to how it completes and the
    widget after. A [throw] keeps the writes made before it. *)
Definition M (A : Type) : Type := ColorLight -> completion A * ColorLight.

Definition ret {A} (a : A) : M A := fun w => (Normal a, w).

Definition throw {A} (e : exn) : M A := fun w => (Throw e, w).

Definition bind {A B} (m : M A) (k : A -> M B) : M B :=
  fun w =>
    match m w with
    | (Normal a, w') => k a w'
    | (Throw e, w') => (Throw e, w')
    end.

Definition catch {A} (m : M A) (handler : exn -> M A) : M A :=
  fun w =>
    match m w with
    | (Normal a, w') => (Normal a, w')
    | (Throw e, w') => handler e w'
    end.

Definition get : M ColorLight := fun w => (Normal w, w).

Definition modify (f : ColorLight -> ColorLight) : M unit :=
  fun w => (Normal tt, f w).

Notation "'do' x <- m ; k" := (bind m (fun x => k))
  (at level 10, x name, m at level 100, k at level 200).
Notation "'run' m ; k" := (bind m (fun _ => k))
  (at level 10, m at level 100, k at level 200).

Definition when (c : bool) (m : M unit) : M unit := if c then m else ret tt.

(** An assignment to a property of one of the three elements; a
    [TypeError] when the elements were never looked up. *)
Definition assign_dom (f : Dom -> Dom) : M unit :=
  fun w =>
    match rendered w with
    | Some d => (Normal tt, with_rendered (f d) w)
    | None => (Throw (TypeError "Cannot set property of undefined"), w)
    end.

Definition set_background (s : string) (d : Dom) : Dom :=
  mkDom s (classList d) (textContent d) (fill d).

Definition set_classList (c : gset string) (d : Dom) : Dom :=
  mkDom (background d) c (textContent d) (fill d).

Definition set_textContent (s : string) (d : Dom) : Dom :=
  mkDom (background d) (classList d) s (fill d).

Definition set_fill (v : value) (d : Dom) : Dom :=
  mkDom (background d) (classList d) (textContent d) v.

(** Modelled from the spec: [showOn] and [showOff], inherited from
    [OnOffSwitch] (on-off-switch.js), toggle the "on" visual state. *)
Definition showOn : M unit := modify (with_shownOn true).
Definition showOff : M unit := modify (with_shownOn false).

(** Modelled from the spec: [this.displayedProperties.<name>.detail.update()];
    the detail collaborators (on-off-detail.js, color-detail.js,
    color-temperature-detail.js) take no argument and read the shared
    cache. Reading [detail] of a property that is not displayed is a
    [TypeError]. *)
Definition detail_update (name : string) : M unit :=
  fun w =>
    match displayedProperties w !! name with
    | Some _ => (Normal tt, with_detailUpdates (name :: detailUpdates w) w)
    | None => (Throw (TypeError "Cannot read property 'detail' of undefined"), w)
    end.

Definition console_error (line : string) : M unit :=
  modify (fun w => with_console (line :: console w) w).

(** The part of the constructor that fills [displayedProperties] from
    [description.properties] (here the [href] of each described property):
    [on] always, then [color] if described, otherwise [colorTemperature] if
    described. *)
Definition construct_displayedProperties
    (description_properties : option (gmap string string))
    (inherited : gmap string string) : completion (gmap string string) :=
  match description_properties with
  | None => Normal inherited
  | Some props =>
      match props !! "on" with
      | None => Throw (TypeError "Cannot read property 'href' of undefined")
      | Some on_href =>
          let displayed := <["on" := on_href]> inherited in
          match props !! "color" with
          | Some color_href => Normal (<["color" := color_href]> displayed)
          | None =>
              match props !! "colorTemperature" with
              | Some href =>
                  Normal (<["colorTemperature" := href]> displayed)
              | None => Normal displayed
              end
          end
      end
  end.

(** A [fetch] call: where to, how, the payload object given to
    [JSON.stringify], and the headers. The text that [JSON.stringify] makes
    of the payload, which is what is sent, is [JSON_stringify] below; the
    request holds the payload itself, also for an object that
    [JSON.stringify] would reject. *)
Record Request : Type := mkRequest {
  url : string;
  method : string;
  body : list (string * value);
  headers : gmap string string;
}.

(** How the promise returned by [fetch] settles: rejected (a transport
    failure), or fulfilled with a response, of which the callbacks use
    [status] and [json()]. [json] is the object the body parses to, or what
    the chain throws when the body does not parse or is not an object. *)
Inductive settled : Type :=
  | Rejected (reason : exn)
  | Fulfilled (status : Z) (json : completion (gmap string value)).

Section Widget.

Variable Math_log : float -> float.
Variable Math_pow : float -> float -> float.

(** [ToNumber] on a string or an object (the engine's numeric-literal
    parser and [ToPrimitive]). *)
Variable ToNumber_other : value -> float.

(** What [API.headers()] returns (api.js). *)
Variable API_headers : gmap string string.

Definition ToNumber (v : value) : float :=
  match v with
  | JUndefined => nan
  | JNull => 0%float
  | JBool b => if b then 1%float else 0%float
  | JNum x => x
  | JStr _ | JObj _ => ToNumber_other v
  end.

(** A property read [object.name]: [undefined] when absent. *)
Definition prop (o : gmap string value) (name : string) : value :=
  default JUndefined (o !! name).

Definition getIconColor (w : ColorLight) : value :=
  if bool_decide (is_Some (properties w !! "color")) then
    prop (properties w) "color"
  else if bool_decide (is_Some (properties w !! "colorTemperature")) then
    JStr (colorTemperatureToRGB Math_log Math_pow
            (ToNumber (prop (properties w) "colorTemperature")))
  else
    JStr "#ffffff".

Definition updateIcon : M unit :=
  do w <- get;
  let iconColor := getIconColor w in
  run assign_dom (set_fill iconColor);
  match iconColor with
  | JStr c =>
      if isBrightColor c then
        assign_dom (fun d => set_classList (classList d ∪ {["bright-color"]}) d)
      else
        assign_dom (fun d => set_classList (classList d ∖ {["bright-color"]}) d)
  | _ => throw (TypeError "iconColor.substr is not a function")
  end.

Definition set_property (name : string) (v : value) : M unit :=
  modify (fun w => with_properties (<[name := v]> (properties w)) w).

Definition is_htmlDetail (w : ColorLight) : bool :=
  String.eqb (format w) "htmlDetail".

Definition updateOn (on : value) : M unit :=
  run set_property "on" on;
  match on with
  | JNull => ret tt
  | _ =>
      let onoff := if truthy on then "on" else "off" in
      run assign_dom (set_textContent onoff);
      do w <- get;
      run when (is_htmlDetail w) (detail_update "on");
      run assign_dom (set_background (if truthy on then "white" else ""));
      if truthy on then showOn else showOff
  end.

Definition updateColor (color : value) : M unit :=
  if negb (truthy color) then ret tt
  else
    run set_property "color" color;
    do w <- get;
    match rendered w with
    | None => ret tt
    | Some _ =>
        run when (is_htmlDetail w) (detail_update "color");
        updateIcon
    end.

Definition updateColorTemperature (temperature : value) : M unit :=
  let temperature :=
    match temperature with
    | JStr s => JNum (parseInt s 10)
    | _ => temperature
    end in
  run set_property "colorTemperature" temperature;
  do w <- get;
  match rendered w with
  | None => ret tt
  | Some _ =>
      run when (is_htmlDetail w) (detail_update "colorTemperature");
      updateIcon
  end.

Definition updateProperty (name : string) (v : value) : M unit :=
  run when (String.eqb name "on") (updateOn v);
  run when (String.eqb name "color") (updateColor v);
  when (String.eqb name "colorTemperature") (updateColorTemperature v).

(** [this.displayedProperties.<name>.href]. *)
Definition displayed_href (name : string) : M string :=
  do w <- get;
  match displayedProperties w !! name with
  | Some href => ret href
  | None => throw (TypeError "Cannot read property 'href' of undefined")
  end.

Definition put (href : string) (payload : list (string * value)) : Request :=
  mkRequest href "PUT" payload
    (<["Content-Type" := "application/json"]> API_headers).

(** [setColor] up to its return: the [fetch] call it makes. *)
Definition setColor (color : value) : M Request :=
  let payload := [("color", color)] in
  do href <- displayed_href "color";
  ret (put href payload).

(** The [then]/[then]/[catch] chain of [setColor], run when the promise
    of [fetch] settles. *)
Definition setColor_settled (response : settled) : M unit :=
  catch
    (do json <-
       match response with
       | Rejected reason => throw reason
       | Fulfilled status json =>
           if status =? 200 then (fun w => (json, w))
           else throw (Error ("Status " ++ toString 10 (IInt status)
                                ++ " trying to set color"))
       end;
     updateColor (prop json "color"))
    (fun error =>
       console_error ("Error trying to set color: " ++ exn_toString error)).

Definition setColorTemperature (temperature : value) : M Request :=
  let temperature :=
    match temperature with
    | JStr s => JNum (parseInt s 10)
    | _ => temperature
    end in
  let payload := [("colorTemperature", temperature)] in
  do href <- displayed_href "colorTemperature";
  ret (put href payload).

Definition setColorTemperature_settled (response : settled) : M unit :=
  catch
    (do json <-
       match response with
       | Rejected reason => throw reason
       | Fulfilled status json =>
           if status =? 200 then (fun w => (json, w))
           else throw (Error ("Status " ++ toString 10 (IInt status)
                                ++ " trying to set color temperature"))
       end;
     updateColorTemperature (prop json "colorTemperature"))
    (fun error =>
       console_error ("Error trying to set color temperature: "
                        ++ exn_toString error)).

End Widget.

(** ** Notions used to state the properties *)

(** The widget after the property [name] is cached, and after its detail
    view, shown only in the ['htmlDetail'] format, is refreshed. *)
Definition cached (name : string) (v : value) (w : ColorLight) : ColorLight :=
  with_properties (<[name := v]> (properties w)) w.

Definition detail_refreshed (name : string) (w : ColorLight) : ColorLight :=
  if is_htmlDetail w
  then with_detailUpdates (name :: detailUpdates w) w
  else w.

(** [signed s x]: [x] is a zero, a finite number or an infinity of sign
    [s]; never NaN. *)
Definition signed (s : bool) (x : spec_float) : Prop :=
  match x with
  | S754_zero s' | S754_infinity s' | S754_finite s' _ _ => s' = s
  | S754_nan => False
  end.

(** The value of the finite number [m * 2^e] in units of [2^-1074], the
    smallest positive Number. *)
Definition ival (m : positive) (e : Z) : Z := Z.pos m * 2 ^ (e + 1074).

Definition is_lower_hex (c : ascii) : bool :=
  let n := N_of_ascii c in
  ((48 <=? n) && (n <=? 57) || (97 <=? n) && (n <=? 102))%N.

(** [#] followed by one to six lowercase hexadecimal digits. *)
Definition hex_color_1_6 (s : string) : bool :=
  match s with
  | String "#" digits =>
      (1 <=? String.length digits)%nat && (String.length digits <=? 6)%nat
      && forallb is_lower_hex (list_ascii_of_string digits)
  | _ => false
  end.

(** One or two lowercase hexadecimal digits. *)
Definition channel_digits (s : string) : bool :=
  (1 <=? String.length s)%nat && (String.length s <=? 2)%nat
  && forallb is_lower_hex (list_ascii_of_string s).

Fixpoint iterate {A : Type} (f : A -> A) (n : nat) (x : A) : list A :=
  match n with
  | O => []
  | S n' => f x :: iterate f n' (f x)
  end.

(** The Numbers at most [k] units in the last place away from [c]. *)
Definition ulp_ball (k : nat) (c : float) : list float :=
  c :: iterate next_up k c ++ iterate next_down k c.

(** The scaled temperature of the integer Kelvin value [n] is at most 19
    and is a positive zero or a positive finite Number. *)
Definition low_temperature (n : nat) : bool :=
  let t := (Number_of_Z (Z.of_nat n) / 100)%float in
  (t <=? 19)%float
  && match Prim2SF t with
     | S754_zero false | S754_finite false _ _ => true
     | _ => false
     end.

(** The green value at 6600 K before clamping, for a value [l] of
    [Math.log(66)]; and the check that it lies between 255 and 256 and that
    the clamped, rounded channel is 255. *)
Definition green_6600 (l : float) : float :=
  (99.4708025861 * l - 161.1195681661)%float.

Definition green_6600_saturates (l : float) : bool :=
  (255 <? green_6600 l)%float && (green_6600 l <? 256)%float
  && match Math_round (Math_min (Math_max (green_6600 l) 0) 255) with
     | IInt z => z =? 255
     | _ => false
     end.

(** *** Sample inputs *)

(** Stand-ins for the engine's [Math.log] and [Math.pow] at the arguments
    the sample temperatures need: the Numbers nearest to ln 9, ln 17, ln 19,
    ln 27, ln 66, and to 40 to the two exponents of the conversion. *)
Definition sample_log (x : float) : float :=
  if (x =? 9)%float then 2.1972245773362196%float
  else if (x =? 17)%float then 2.833213344056216%float
  else if (x =? 19)%float then 2.9444389791664403%float
  else if (x =? 27)%float then 3.295836866004329%float
  else if (x =? 66)%float then 4.189654742026425%float
  else 0%float.

Definition sample_pow (x y : float) : float :=
  if (x =? 40)%float && (y =? -0.1332047592)%float then 0.6117838167961716%float
  else if (x =? 40)%float && (y =? -0.0755148492)%float then 0.7568689366838179%float
  else 1%float.

Definition sample_ToNumber (v : value) : float := nan.

(** A bulb described with [on] and [colorTemperature] only, switched on,
    and one described with [on] and [color], switched off; both are shown in
    the ['html'] format. *)
Definition temperature_light : ColorLight :=
  mkColorLight "html"
    {[ "on" := "/things/lamp/properties/on";
       "colorTemperature" := "/things/lamp/properties/colorTemperature" ]}
    {[ "on" := JBool true; "colorTemperature" := JNum 2700 ]}
    (Some (mkDom "white" ∅ "on" (JStr "#ffa757")))
    true [] [].

Definition color_light : ColorLight :=
  mkColorLight "html"
    {[ "on" := "/things/lamp/properties/on";
       "color" := "/things/lamp/properties/color" ]}
    {[ "on" := JBool false; "color" := JStr "#112233" ]}
    (Some (mkDom "" ∅ "off" (JStr "#112233")))
    false [] [].

(** ** The rest of the file: the icon markup *)

(** The double quote, for the attribute values of the markup. *)
Definition dq : string := String "034" EmptyString.

Section IconView.

Variable Math_log : float -> float.
Variable Math_pow : float -> float -> float.
Variable ToNumber_other : value -> float.

(** [ToString] on a Number or an object (the engine's number printer and
    [ToPrimitive]). *)
Variable ToString_other : value -> string.

(** The literal markup of the icon and its label that follows the opening
    tag in the template of [iconView], up to the closing [</div>]. *)
Variable icon_markup : string.

(** What a template literal makes of [${v}]. *)
Definition ToString (v : value) : string :=
  match v with
  | JUndefined => "undefined"
  | JNull => "null"
  | JBool b => if b then "true" else "false"
  | JStr s => s
  | JNum _ | JObj _ => ToString_other v
  end.

Definition iconView (w : ColorLight) : string :=
  let colorStyle :=
    if truthy (prop (properties w) "on")
    then "background: "
         ++ ToString (getIconColor Math_log Math_pow ToNumber_other w)
    else "" in
  "<div class=" ++ dq ++ "color-light" ++ dq ++ " style=" ++ dq ++ colorStyle
    ++ dq ++ ">" ++ icon_markup.

End IconView.

(** *** Checks over the 256 channel values *)

(** A channel value prints as one digit below 16 and as two from 16 on. *)
Definition channel_length_ok (n : nat) : bool :=
  (String.length (toString 16 (IInt (Z.of_nat n)))
   =? (if (n <? 16)%nat then 1 else 2))%nat.

(** [parseInt(_, 16)] reads a printed channel value back. *)
Definition channel_reads_back (n : nat) : bool :=
  Leibniz.eqb (parseInt (toString 16 (IInt (Z.of_nat n))) 16)
    (Number_of_Z (Z.of_nat n)).

(** What no property update touches: the format, the displayed properties,
    the console log, and whether the widget has its elements. *)
Definition same_frame (w w' : ColorLight) : Prop :=
  format w' = format w /\ displayedProperties w' = displayedProperties w /\
  console w' = console w /\ (rendered w' = None <-> rendered w = None).

(** The colour bulb in the ['svg'] format: the constructor has returned
    before looking up the elements. *)
Definition svg_light : ColorLight :=
  mkColorLight "svg"
    {[ "on" := "/things/lamp/properties/on";
       "color" := "/things/lamp/properties/color" ]}
    ∅ None false [] [].

(** ** The request body: [JSON.stringify(payload)] *)

(** The backslash. *)
Definition bs : string := String "092" EmptyString.

Section JSON.

(** [Number::toString] on a finite Number (the engine's number printer). *)
Variable Number_toString : float -> string.

(** [SerializeJSONProperty] on an object, which depends on its kind (array,
    function, plain object), its [toJSON] and its contents: the text, [None]
    when the property is left out, or what it throws (a cyclic structure). *)
Variable SerializeJSON_object : nat -> completion (option string).

(** [QuoteJSONString], code unit by code unit: the two-character escapes,
    [\u00xx] for the other control characters, and the rest as they are. *)
Definition quote_unit (c : ascii) : string :=
  let n := N_of_ascii c in
  if (n =? 8)%N then bs ++ "b"
  else if (n =? 9)%N then bs ++ "t"
  else if (n =? 10)%N then bs ++ "n"
  else if (n =? 12)%N then bs ++ "f"
  else if (n =? 13)%N then bs ++ "r"
  else if (n =? 34)%N then bs ++ dq
  else if (n =? 92)%N then bs ++ bs
  else if (n <? 32)%N then
    bs ++ "u00" ++ String (digit_char (n / 16)) (String (digit_char (n mod 16)) "")
  else String c "".

Fixpoint quote_units (s : string) : string :=
  match s with
  | EmptyString => ""
  | String c s' => quote_unit c ++ quote_units s'
  end.

Definition QuoteJSONString (s : string) : string := dq ++ quote_units s ++ dq.

(** [SerializeJSONProperty] without replacer or indentation: [None] for a
    value that is left out of its object. *)
Definition SerializeJSONProperty (v : value) : completion (option string) :=
  match v with
  | JUndefined => Normal None
  | JNull => Normal (Some "null")
  | JBool b => Normal (Some (if b then "true" else "false"))
  | JNum x => Normal (Some (if is_finite x then Number_toString x else "null"))
  | JStr s => Normal (Some (QuoteJSONString s))
  | JObj ref => SerializeJSON_object ref
  end.

(** The members of a plain object, from its entries in order. *)
Fixpoint SerializeJSONObject_members (entries : list (string * value))
  : completion (list string) :=
  match entries with
  | [] => Normal []
  | (key, v) :: rest =>
      match SerializeJSONProperty v with
      | Throw e => Throw e
      | Normal None => SerializeJSONObject_members rest
      | Normal (Some text) =>
          match SerializeJSONObject_members rest with
          | Throw e => Throw e
          | Normal members =>
              Normal ((QuoteJSONString key ++ ":" ++ text) :: members)
          end
      end
  end.

(** [JSON.stringify(payload)] for a payload object literal. *)
Definition JSON_stringify (payload : list (string * value)) : completion string :=
  match SerializeJSONObject_members payload with
  | Throw e => Throw e
  | Normal members => Normal ("{" ++ String.concat "," members ++ "}")
  end.

End JSON.

(** A code unit that [QuoteJSONString] leaves as it is. *)
Definition is_plain (c : ascii) : bool :=
  let n := N_of_ascii c in
  ((32 <=? n) && negb (n =? 34) && negb (n =? 92))%N.

(** *** The luminance of the specification *)

(** [0.299 r + 0.587 g + 0.114 b] over the integers, in thousandths: the
    luminance as the specification writes it, without rounding. *)
Definition exact_luminance_1000 (r g b : Z) : Z := 299 * r + 587 * g + 114 * b.

(** The test of [updateIcon] on the channels [r], [g], [b] is the test of
    the exact luminance, or the channels are those of [#aae216]. *)
Definition luminance_agrees (r g b : Z) : bool :=
  Bool.eqb
    (186 <? luminance (Number_of_Z r) (Number_of_Z g) (Number_of_Z b))%float
    ((186000 <? exact_luminance_1000 r g b)
     || ((r =? 170) && (g =? 226) && (b =? 22))).

(** The same check on every triple of a list of channel values, each with
    its Number, the products of each channel being computed once. *)
Definition agree_on (cs : list (Z * float)) : bool :=
  let blues :=
    map (fun c => (fst c, 114 * fst c, (snd c * 0.114)%float)) cs in
  forallb (fun r =>
    let fr := (snd r * 0.299)%float in
    let zr := 299 * fst r in
    let r170 := fst r =? 170 in
    forallb (fun g =>
      let frg := (fr + snd g * 0.587)%float in
      let zrg := zr + 587 * fst g in
      let rg := r170 && (fst g =? 226) in
      forallb (fun b =>
        Bool.eqb (186 <? frg + snd b)%float
          ((186000 <? zrg + snd (fst b)) || (rg && (fst (fst b) =? 22))))
        blues) cs) cs.

(** The channel values from 0 to 255. *)
Definition channel_values : list (Z * float) :=
  map (fun n => (Z.of_nat n, Number_of_Z (Z.of_nat n))) (seq 0 256).

(** *** More sample widgets *)

(** The colour bulb switched on and showing the bright [#ffffff]. *)
Definition bright_light : ColorLight :=
  mkColorLight "html"
    {[ "on" := "/things/lamp/properties/on";
       "color" := "/things/lamp/properties/color" ]}
    {[ "on" := JBool true; "color" := JStr "#ffffff" ]}
    (Some (mkDom "white" {[ "bright-color" ]} "on" (JStr "#ffffff")))
    true [] [].

(** The detail view of a bulb described with [on], [color] and
    [colorTemperature], of which the constructor displays [on] and [color];
    nothing is cached yet and the icon was last filled with [#ffffff]. *)
Definition detail_light : ColorLight :=
  mkColorLight "htmlDetail"
    {[ "on" := "/things/lamp/properties/on";
       "color" := "/things/lamp/properties/color" ]}
    ∅
    (Some (mkDom "" ∅ "off" (JStr "#ffffff")))
    false [] [].

(** The detail view of a widget built from a description without
    [properties]: nothing is displayed. *)
Definition bare_detail_light : ColorLight :=
  mkColorLight "htmlDetail" ∅ ∅ (Some (mkDom "" ∅ "off" (JStr "#ffffff")))
    false [] [].

(** * Properties *)

(** ** Facts about binary64 arithmetic *)

Lemma digits2_pos_bounds (m : positive) :
  2 ^ (Z.pos (digits2_pos m) - 1) <= Z.pos m < 2 ^ Z.pos (digits2_pos m).
Proof.
  induction m as [p IH | p IH |]; cbn [digits2_pos]; [| | cbn; lia].
  all: rewrite Pos2Z.inj_succ;
    replace (Z.succ (Z.pos (digits2_pos p)) - 1)
      with (Z.succ (Z.pos (digits2_pos p) - 1)) by lia;
    rewrite !Z.pow_succ_r by lia; lia.
Qed.

Lemma bounded_facts (m : positive) (e : Z) :
  bounded prec emax m e = true ->
  -1074 <= e <= 971 /\ Z.pos m < 2 ^ 53 /\ (-1074 < e -> 2 ^ 52 <= Z.pos m).
Proof.
  unfold bounded, canonical_mantissa, fexp, SpecFloat.emin, prec, emax.
  intros H. apply andb_true_iff in H as [Hc He].
  apply Z.eqb_eq in Hc. apply Z.leb_le in He.
  pose proof (digits2_pos_bounds m) as [Hlo Hhi].
  set (d := Z.pos (digits2_pos m)) in *.
  assert (Hd : d <= 53 /\ (-1074 < e -> d = 53)) by lia.
  destruct Hd as [Hd1 Hd2].
  split; [lia |]. split.
  - eapply Z.lt_le_trans; [exact Hhi |]. apply Z.pow_le_mono_r; lia.
  - intros Hlt. rewrite (Hd2 Hlt) in Hlo. exact Hlo.
Qed.

Lemma ival_lt_of_exp (m1 m2 : positive) (e1 e2 : Z) :
  bounded prec emax m1 e1 = true -> bounded prec emax m2 e2 = true ->
  e1 < e2 -> ival m1 e1 < ival m2 e2.
Proof.
  intros H1 H2 Hlt.
  apply bounded_facts in H1 as ([? ?] & Hm1 & _).
  apply bounded_facts in H2 as ([? ?] & _ & Hm2).
  assert (Hm2' : 2 ^ 52 <= Z.pos m2) by (apply Hm2; lia). clear Hm2. unfold ival.
  replace (e2 + 1074) with ((e1 + 1074) + (e2 - e1)) by lia.
  rewrite (Z.pow_add_r 2 (e1 + 1074) (e2 - e1)) by lia.
  assert (0 < 2 ^ (e1 + 1074)) by (apply Z.pow_pos_nonneg; lia).
  assert (2 ^ 1 <= 2 ^ (e2 - e1)) by (apply Z.pow_le_mono_r; lia).
  change (2 ^ 53) with (2 * 2 ^ 52) in Hm1. change (2 ^ 1) with 2 in *.
  generalize dependent (2 ^ 52). generalize dependent (2 ^ (e2 - e1)).
  generalize dependent (2 ^ (e1 + 1074)). intros A HA B HB c Hc1 Hc2.
  apply Z.lt_le_trans with (2 * c * A).
  - apply Z.mul_lt_mono_pos_r; lia.
  - apply Z.le_trans with (Z.pos m2 * (A * 2)); [nia |].
    apply Z.mul_le_mono_nonneg_l; [lia |]. apply Z.mul_le_mono_nonneg_l; lia.
Qed.

Lemma compare_ival (m1 m2 : positive) (e1 e2 : Z) :
  bounded prec emax m1 e1 = true -> bounded prec emax m2 e2 = true ->
  match e1 ?= e2 with
  | Lt => Lt
  | Gt => Gt
  | Eq => Pos.compare_cont Eq m1 m2
  end = (ival m1 e1 ?= ival m2 e2).
Proof.
  intros H1 H2. destruct (Z.compare_spec e1 e2) as [-> | Hlt | Hgt].
  - unfold ival. change (Pos.compare_cont Eq m1 m2) with (Z.pos m1 ?= Z.pos m2).
    apply bounded_facts in H2 as ([? ?] & _).
    apply Zmult_compare_compat_r. apply Z.lt_gt, Z.pow_pos_nonneg; lia.
  - symmetry. apply Z.compare_lt_iff. now apply ival_lt_of_exp.
  - symmetry. apply Z.compare_gt_iff. now apply ival_lt_of_exp.
Qed.

Lemma shr_1_nonneg (mrs : shr_record) :
  0 <= shr_m mrs -> 0 <= shr_m (shr_1 mrs).
Proof.
  destruct mrs as [m r s]. destruct m as [| p | p]; cbn [shr_m]; intros H.
  - cbn. lia.
  - destruct p; cbn; lia.
  - lia.
Qed.

Lemma iter_shr_1_nonneg (p : positive) (mrs : shr_record) :
  0 <= shr_m mrs -> 0 <= shr_m (SpecFloat.iter_pos shr_1 p mrs).
Proof.
  revert mrs. induction p as [p IH | p IH |]; intros mrs H; cbn [SpecFloat.iter_pos].
  - apply IH, IH, shr_1_nonneg, H.
  - apply IH, IH, H.
  - apply shr_1_nonneg, H.
Qed.

Lemma shr_fexp_nonneg (m e : Z) (l : location) :
  0 <= m -> 0 <= shr_m (fst (shr_fexp prec emax m e l)).
Proof.
  intros H. unfold shr_fexp, shr.
  assert (H0 : 0 <= shr_m (shr_record_of_loc m l))
    by (destruct l as [| []]; exact H).
  destruct (fexp prec emax (Zdigits2 m + e) - e); cbn [fst];
    auto using iter_shr_1_nonneg.
Qed.

Lemma round_nearest_even_nonneg (m : Z) (l : location) :
  0 <= m -> 0 <= round_nearest_even m l.
Proof.
  intros H. destruct l as [| []]; cbn; try destruct (Z.even m); lia.
Qed.

Lemma binary_round_aux_signed (s : bool) (m e : Z) (l : location) :
  0 <= m -> signed s (binary_round_aux prec emax s m e l).
Proof.
  intros H. unfold binary_round_aux.
  pose proof (shr_fexp_nonneg m e l H) as H1.
  destruct (shr_fexp prec emax m e l) as [mrs' e']. cbn [fst] in H1.
  pose proof (shr_fexp_nonneg _ e' loc_Exact
                (round_nearest_even_nonneg _ (loc_of_shr_record mrs') H1)) as H2.
  destruct (shr_fexp prec emax _ e' loc_Exact) as [mrs'' e'']. cbn [fst] in H2.
  destruct (shr_m mrs'') as [| p | p]; [reflexivity | | lia].
  destruct (e'' <=? emax - prec); reflexivity.
Qed.

Lemma binary_round_signed (s : bool) (m : positive) (e : Z) :
  signed s (binary_round prec emax s m e).
Proof.
  unfold binary_round. destruct (shl_align _ _ _) as [mz ez].
  apply binary_round_aux_signed. lia.
Qed.

Lemma signed_not_nan (s : bool) (x : spec_float) : signed s x -> x <> S754_nan.
Proof. intros H ->. exact H. Qed.

Lemma SFcompare_refl (x : spec_float) :
  x <> S754_nan -> SFcompare x x = Some Eq.
Proof.
  destruct x as [s | s | | s m e]; [destruct s .. | | ]; try easy.
  intros _. cbn. rewrite Z.compare_refl.
  change (Pos.compare_cont Eq m m) with (m ?= m)%positive.
  rewrite Pos.compare_refl. now destruct s.
Qed.

Lemma is_nan_Prim2SF (x : float) : is_nan x = true <-> Prim2SF x = S754_nan.
Proof.
  unfold is_nan. rewrite FloatAxioms.eqb_spec. unfold SFeqb.
  destruct (Prim2SF x) as [s | s | | s m e] eqn:E; try (rewrite SFcompare_refl by easy); easy.
Qed.

Lemma not_nan_Prim2SF (x : float) : is_nan x = false <-> Prim2SF x <> S754_nan.
Proof.
  pose proof (is_nan_Prim2SF x) as [H1 H2].
  destruct (is_nan x); split; intros H; try congruence.
  - now specialize (H1 eq_refl).
  - intros E. now specialize (H2 E).
Qed.

Lemma signed_is_nan (s : bool) (x : float) : signed s (Prim2SF x) -> is_nan x = false.
Proof. intros H. apply not_nan_Prim2SF. eauto using signed_not_nan. Qed.

(** A finite constant times, or minus, a number is NaN only if that number
    is. *)
Lemma mul_finite_not_nan (c x : float) (s : bool) (m : positive) (e : Z) :
  Prim2SF c = S754_finite s m e -> is_nan x = false -> is_nan (c * x) = false.
Proof.
  intros Hc Hx. apply not_nan_Prim2SF in Hx. apply not_nan_Prim2SF.
  rewrite mul_spec, Hc. unfold SF64mul, SFmul.
  destruct (Prim2SF x) as [sx | sx | | sx mx ex]; try easy.
  eapply signed_not_nan, binary_round_aux_signed. lia.
Qed.

Lemma binary_normalize_not_nan (m e : Z) (szero : bool) :
  binary_normalize prec emax m e szero <> S754_nan.
Proof.
  destruct m; cbn [binary_normalize]; [easy | |];
    eapply signed_not_nan, binary_round_signed.
Qed.

Lemma sub_finite_not_nan (x c : float) (s : bool) (m : positive) (e : Z) :
  Prim2SF c = S754_finite s m e -> is_nan x = false -> is_nan (x - c) = false.
Proof.
  intros Hc Hx. apply not_nan_Prim2SF in Hx. apply not_nan_Prim2SF.
  rewrite sub_spec, Hc. unfold SF64sub, SFsub.
  destruct (Prim2SF x) as [sx | sx | | sx mx ex]; try easy.
  apply binary_normalize_not_nan.
Qed.

Lemma Prim2SF_bounded (x : float) (s : bool) (m : positive) (e : Z) :
  Prim2SF x = S754_finite s m e -> bounded prec emax m e = true.
Proof. intros H. pose proof (Prim2SF_valid x) as V. now rewrite H in V. Qed.

Lemma SFcompare_finite_pos (m1 m2 : positive) (e1 e2 : Z) :
  bounded prec emax m1 e1 = true -> bounded prec emax m2 e2 = true ->
  SFcompare (S754_finite false m1 e1) (S754_finite false m2 e2)
  = Some (ival m1 e1 ?= ival m2 e2).
Proof. intros H1 H2. cbn. f_equal. now apply compare_ival. Qed.

(** What [signed false] gives the callers of [Math.log] and [Math.pow]. *)
Lemma signed_not_negative (x : float) :
  signed false (Prim2SF x) -> is_nan x = false /\ (x <? 0)%float = false.
Proof.
  intros H. split; [eauto using signed_is_nan |].
  rewrite FloatAxioms.ltb_spec. change (Prim2SF 0) with (S754_zero false).
  destruct (Prim2SF x) as [s | s | | s m e]; cbn in H; subst; easy.
Qed.

(** Above a positive constant there are only positive numbers. *)
Lemma leb_false_cases (t a : float) (ma : positive) (ea : Z) :
  Prim2SF a = S754_finite false ma ea ->
  signed false (Prim2SF t) ->
  (t <=? a)%float = false ->
  Prim2SF t = S754_infinity false \/
  exists mt et, Prim2SF t = S754_finite false mt et /\ ival ma ea < ival mt et.
Proof.
  intros Ha Ht Hle. rewrite FloatAxioms.leb_spec, Ha in Hle.
  pose proof (Prim2SF_bounded _ _ _ _ Ha) as Ba.
  destruct (Prim2SF t) as [s | s | | s m e] eqn:E; cbn in Ht; subst; try easy.
  - now left.
  - right. exists m, e. split; [reflexivity |].
    pose proof (Prim2SF_bounded _ _ _ _ E) as Bt.
    unfold SFleb in Hle. rewrite SFcompare_finite_pos in Hle by assumption.
    destruct (Z.compare_spec (ival m e) (ival ma ea)); easy.
Qed.

Lemma leb_true_cases (a t : float) (ma : positive) (ea : Z) :
  Prim2SF a = S754_finite false ma ea ->
  (a <=? t)%float = true ->
  Prim2SF t = S754_infinity false \/
  exists mt et, Prim2SF t = S754_finite false mt et /\ ival ma ea <= ival mt et.
Proof.
  intros Ha Hle. rewrite FloatAxioms.leb_spec, Ha in Hle.
  pose proof (Prim2SF_bounded _ _ _ _ Ha) as Ba.
  destruct (Prim2SF t) as [s | s | | s m e] eqn:E; try easy.
  - destruct s; [easy | now left].
  - destruct s; [easy |]. right. exists m, e. split; [reflexivity |].
    pose proof (Prim2SF_bounded _ _ _ _ E) as Bt.
    unfold SFleb in Hle. rewrite SFcompare_finite_pos in Hle by assumption.
    destruct (Z.compare_spec (ival ma ea) (ival m e)); try easy; lia.
Qed.

(** At or below a positive constant is below every larger constant. *)
Lemma leb_below (t a b : float) (ma mb : positive) (ea eb : Z) :
  Prim2SF a = S754_finite false ma ea ->
  Prim2SF b = S754_finite false mb eb ->
  ival ma ea < ival mb eb ->
  signed false (Prim2SF t) ->
  (t <=? a)%float = true ->
  (t <=? b)%float = true /\ (b <=? t)%float = false.
Proof.
  intros Ha Hb Hab Ht Hle. rewrite !FloatAxioms.leb_spec, Ha, Hb in *.
  pose proof (Prim2SF_bounded _ _ _ _ Ha) as Ba.
  pose proof (Prim2SF_bounded _ _ _ _ Hb) as Bb.
  destruct (Prim2SF t) as [s | s | | s m e] eqn:E; cbn in Ht; subst; try easy.
  pose proof (Prim2SF_bounded _ _ _ _ E) as Bt.
  unfold SFleb in *. rewrite !SFcompare_finite_pos in * by assumption.
  destruct (Z.compare_spec (ival m e) (ival ma ea)); try easy;
    destruct (Z.compare_spec (ival m e) (ival mb eb));
    destruct (Z.compare_spec (ival mb eb) (ival m e)); try easy; lia.
Qed.

Lemma iter_xO (m d : positive) :
  Z.pos (Pos.iter xO m d) = Z.pos m * 2 ^ Z.pos d.
Proof.
  induction d as [| d IH] using Pos.peano_ind.
  - cbn. lia.
  - rewrite Pos.iter_succ, Pos2Z.inj_xO, IH, Pos2Z.inj_succ, Z.pow_succ_r by lia.
    lia.
Qed.

Lemma shl_align_ival (m : positive) (e ez : Z) :
  -1074 <= ez <= e ->
  Z.pos (fst (shl_align m e ez)) * 2 ^ (ez + 1074) = ival m e.
Proof.
  intros H. unfold shl_align, ival.
  destruct (ez - e) as [| d | d] eqn:E; cbn [fst].
  - now replace ez with e by lia.
  - lia.
  - rewrite iter_xO, <- Z.mul_assoc, <- Z.pow_add_r by lia.
    do 2 f_equal. lia.
Qed.

Lemma sub_signed (t b : float) (mt mb : positive) (et eb : Z) :
  Prim2SF t = S754_finite false mt et ->
  Prim2SF b = S754_finite false mb eb ->
  ival mb eb <= ival mt et ->
  signed false (Prim2SF (t - b)).
Proof.
  intros Ht Hb Hle. rewrite sub_spec, Ht, Hb. unfold SF64sub, SFsub, cond_Zopp.
  apply Prim2SF_bounded, bounded_facts in Ht as ([? ?] & _).
  apply Prim2SF_bounded, bounded_facts in Hb as ([? ?] & _).
  set (ez := Z.min et eb).
  pose proof (shl_align_ival mt et ez ltac:(lia)) as E1.
  pose proof (shl_align_ival mb eb ez ltac:(lia)) as E2.
  assert (HK : 0 < 2 ^ (ez + 1074)) by (apply Z.pow_pos_nonneg; lia).
  destruct (Z.pos (fst (shl_align mt et ez)) - Z.pos (fst (shl_align mb eb ez)))
    as [| p | p] eqn:D; cbn [binary_normalize].
  - reflexivity.
  - apply binary_round_signed.
  - exfalso. nia.
Qed.

(** [t - b] is not negative when [t] exceeds a constant [a >= b > 0]. *)
Lemma sub_above_signed (t a b : float) (ma mb : positive) (ea eb : Z) :
  Prim2SF a = S754_finite false ma ea ->
  Prim2SF b = S754_finite false mb eb ->
  ival mb eb <= ival ma ea ->
  signed false (Prim2SF t) ->
  (t <=? a)%float = false ->
  signed false (Prim2SF (t - b)).
Proof.
  intros Ha Hb Hab Ht Hle.
  destruct (leb_false_cases t a ma ea Ha Ht Hle) as [E | (mt & et & E & Hlt)].
  - rewrite sub_spec, E, Hb. reflexivity.
  - eapply sub_signed; eauto. lia.
Qed.

Lemma div_signed (t c : float) (mc : positive) (ec : Z) :
  Prim2SF c = S754_finite false mc ec ->
  (Prim2SF t = S754_infinity false \/
   exists mt et, Prim2SF t = S754_finite false mt et) ->
  signed false (Prim2SF (t / c)).
Proof.
  intros Hc [E | (mt & et & E)]; rewrite div_spec, E, Hc; [reflexivity |].
  unfold SF64div, SFdiv.
  destruct (SFdiv_core_binary _ _ _ _ _ _) as [[mz ez] lz] eqn:D.
  apply binary_round_aux_signed.
  unfold SFdiv_core_binary in D.
  match type of D with
  | context [Z.div_eucl ?a ?b] =>
      assert (Ha : 0 <= a);
      [| pose proof (Z.div_pos a b Ha ltac:(lia)) as Hq;
         unfold Z.div in Hq; destruct (Z.div_eucl a b) as [q r];
         injection D as <- _ _; exact Hq]
  end.
  destruct (et - ec - _); [lia | | lia].
  apply Z.shiftl_nonneg. lia.
Qed.

(** *** Clamping and rounding a channel *)

Lemma clamp_cases (x : float) :
  is_nan x = false ->
  let c := Math_min (Math_max x 0) 255 in
  c = 0%float \/ c = 255%float \/
  (c = x /\ (x <? 0)%float = false /\ (255 <? x)%float = false).
Proof.
  intros Hx.
  assert (Hmin : forall y, is_nan y = false -> (y = 0%float \/ y = x /\ (x <? 0)%float = false) ->
            let c := Math_min y 255 in
            c = 0%float \/ c = 255%float \/
            (c = x /\ (x <? 0)%float = false /\ (255 <? x)%float = false)).
  { intros y Hy Hc c. subst c. unfold Math_min. rewrite Hy.
    change (is_nan 255) with false. cbn [orb].
    destruct (255 <? y)%float eqn:E1; [auto |].
    assert (y = 0%float \/ y = x /\ (x <? 0)%float = false /\ (255 <? x)%float = false)
      as Hy' by (destruct Hc as [-> | [-> ?]]; auto).
    destruct (y <? 255)%float; [| destruct (get_sign y)]; tauto. }
  cbv zeta. unfold Math_max. rewrite Hx. change (is_nan 0) with false. cbn [orb].
  destruct (x <? 0)%float eqn:E1; [apply Hmin; auto |].
  destruct (0 <? x)%float; [apply Hmin; auto |].
  destruct (get_sign x); apply Hmin; auto.
Qed.

Lemma round_in_range (x : float) :
  is_nan x = false -> (x <? 0)%float = false -> (255 <? x)%float = false ->
  exists n, Math_round x = IInt n /\ 0 <= n <= 255.
Proof.
  intros Hnan H0 H255. rewrite FloatAxioms.ltb_spec in H0, H255.
  change (Prim2SF 0) with (S754_zero false) in H0.
  change (Prim2SF 255) with (S754_finite false 8972014882652160 (-45)) in H255.
  apply not_nan_Prim2SF in Hnan. unfold Math_round.
  destruct (Prim2SF x) as [s | s | | s m e] eqn:E; try easy.
  - exists 0. split; [reflexivity | lia].
  - destruct s; easy.
  - destruct s; [easy |]. cbn [cond_Zopp].
    pose proof (Prim2SF_bounded _ _ _ _ E) as B.
    unfold SFltb in H255. rewrite SFcompare_finite_pos in H255 by easy.
    assert (Hle : ival m e <= 255 * 2 ^ 1074).
    { change (255 * 2 ^ 1074) with (ival 8972014882652160 (-45)).
      destruct (Z.compare_spec (ival 8972014882652160 (-45)) (ival m e)); try easy; lia. }
    clear H255 H0. unfold ival in Hle.
    apply bounded_facts in B as ([? ?] & _).
    destruct (Z.leb_spec 0 e) as [He | He]; eexists; (split; [reflexivity |]).
    + rewrite Z.pow_add_r in Hle by lia.
      assert (0 < 2 ^ 1074) by (apply Z.pow_pos_nonneg; lia).
      assert (0 < 2 ^ e) by (apply Z.pow_pos_nonneg; lia).
      generalize dependent (2 ^ 1074). generalize dependent (2 ^ e). intros. nia.
    + replace 1074 with ((e + 1074) + (- e)) in Hle at 2 by lia.
      rewrite (Z.pow_add_r 2 (e + 1074) (- e)) in Hle by lia.
      replace (1 - e) with (Z.succ (- e)) by lia. rewrite Z.pow_succ_r by lia.
      assert (0 < 2 ^ (e + 1074)) by (apply Z.pow_pos_nonneg; lia).
      assert (0 < 2 ^ (- e)) by (apply Z.pow_pos_nonneg; lia).
      generalize dependent (2 ^ (e + 1074)). generalize dependent (2 ^ (- e)).
      intros K HK A Hle HA.
      assert (Z.pos m <= 255 * K) by nia.
      split; [apply Z.div_pos; lia | apply Z.lt_succ_r, Z.div_lt_upper_bound; lia].
Qed.

(** A channel after [Math.max(_, 0)], [Math.min(_, 255)] and [Math.round]
    is an integer from 0 to 255, unless the value was NaN. *)
Lemma clamped_channel (x : float) :
  is_nan x = false ->
  exists n, Math_round (Math_min (Math_max x 0) 255) = IInt n /\ 0 <= n <= 255.
Proof.
  intros Hx. destruct (clamp_cases x Hx) as [-> | [-> | (-> & H0 & H255)]].
  - exists 0. split; [reflexivity | lia].
  - exists 255. split; [reflexivity | lia].
  - now apply round_in_range.
Qed.

(** *** The printed form of a channel *)

Lemma channel_toString (n : Z) :
  0 <= n <= 255 -> channel_digits (toString 16 (IInt n)) = true.
Proof.
  intros H.
  assert (A : forallb (fun k => channel_digits (toString 16 (IInt (Z.of_nat k))))
                (seq 0 256) = true) by (vm_compute; reflexivity).
  rewrite forallb_forall in A. specialize (A (Z.to_nat n)).
  rewrite Z2Nat.id in A by lia. apply A, in_seq. lia.
Qed.

Lemma list_ascii_of_string_app (s1 s2 : string) :
  list_ascii_of_string (s1 ++ s2) = (list_ascii_of_string s1 ++ list_ascii_of_string s2)%list.
Proof.
  induction s1 as [| c s1 IH]; [reflexivity |].
  change (String c s1 ++ s2) with (String c (s1 ++ s2)).
  cbn [list_ascii_of_string]. now rewrite IH.
Qed.

Lemma string_length_app (s1 s2 : string) :
  String.length (s1 ++ s2) = (String.length s1 + String.length s2)%nat.
Proof.
  induction s1 as [| c s1 IH]; [reflexivity |].
  change (String c s1 ++ s2) with (String c (s1 ++ s2)).
  cbn [String.length]. now rewrite IH.
Qed.

Lemma channel_digits_app (s1 s2 s3 : string) :
  channel_digits s1 = true -> channel_digits s2 = true -> channel_digits s3 = true ->
  hex_color_1_6 ("#" ++ s1 ++ s2 ++ s3) = true /\
  (3 <= String.length (s1 ++ s2 ++ s3) <= 6)%nat.
Proof.
  unfold channel_digits, hex_color_1_6. intros H1 H2 H3.
  repeat match goal with
         | H : _ && _ = true |- _ => apply andb_true_iff in H as [? ?]
         | H : (_ <=? _)%nat = true |- _ => apply Nat.leb_le in H
         end.
  change ("#" ++ s1 ++ s2 ++ s3) with (String "#" (s1 ++ s2 ++ s3)). cbv iota beta.
  rewrite !list_ascii_of_string_app, !forallb_app, !string_length_app.
  split; [| lia].
  repeat (apply andb_true_iff; split); try apply Nat.leb_le; auto; lia.
Qed.

Section ColorModelFacts.

Variable Math_log : float -> float.
Variable Math_pow : float -> float -> float.

(** ECMAScript: [Math.log(x)] is NaN only when [x] is NaN or negative. *)
Hypothesis Math_log_defined : forall x,
  is_nan x = false -> (x <? 0)%float = false -> is_nan (Math_log x) = false.

(** ECMAScript: [Math.pow(x, y)] with a finite exponent is NaN only when
    [x] is NaN or negative. *)
Hypothesis Math_pow_defined : forall x y,
  is_nan x = false -> (x <? 0)%float = false -> is_finite y = true ->
  is_nan (Math_pow x y) = false.

Lemma log_channel_not_nan (c d t : float) (sc sd : bool) (mc md : positive) (ec ed : Z) :
  Prim2SF c = S754_finite sc mc ec -> Prim2SF d = S754_finite sd md ed ->
  signed false (Prim2SF t) ->
  is_nan (c * Math_log t - d) = false.
Proof.
  intros Hc Hd Ht. apply signed_not_negative in Ht as [? ?].
  eapply sub_finite_not_nan; [exact Hd |].
  eapply mul_finite_not_nan; [exact Hc |]. now apply Math_log_defined.
Qed.

Lemma pow_channel_not_nan (c y t : float) (sc : bool) (mc : positive) (ec : Z) :
  Prim2SF c = S754_finite sc mc ec -> is_finite y = true ->
  signed false (Prim2SF t) ->
  is_nan (c * Math_pow t y) = false.
Proof.
  intros Hc Hy Ht. apply signed_not_negative in Ht as [? ?].
  eapply mul_finite_not_nan; [exact Hc |]. now apply Math_pow_defined.
Qed.

(** With a scaled temperature that is not negative, each channel is an
    integer from 0 to 255. *)
Lemma colorTemperatureToRGB_channels (T : float) :
  signed false (Prim2SF (T / 100)) ->
  exists r g b,
    0 <= r <= 255 /\ 0 <= g <= 255 /\ 0 <= b <= 255 /\
    colorTemperatureToRGB Math_log Math_pow T = "#" ++ toString 16 (IInt r) ++ toString 16 (IInt g)
                  ++ toString 16 (IInt b).
Proof.
  intros Ht. unfold colorTemperatureToRGB. cbv zeta.
  set (t := (T / 100)%float) in *.
  assert (H60 : (t <=? 66)%float = false -> signed false (Prim2SF (t - 60))).
  { intros E. eapply (sub_above_signed t 66 60); try reflexivity; try assumption.
    vm_compute. discriminate. }
  assert (H10 : (t <=? 19)%float = false -> signed false (Prim2SF (t - 10))).
  { intros E. eapply (sub_above_signed t 19 10); try reflexivity; try assumption.
    vm_compute. discriminate. }
  match goal with
  | |- context [toString 16 (Math_round ?R) ++ toString 16 (Math_round ?G)
                  ++ toString 16 (Math_round ?B)] =>
      assert (HR : exists n, Math_round R = IInt n /\ 0 <= n <= 255);
      [| assert (HG : exists n, Math_round G = IInt n /\ 0 <= n <= 255);
         [| assert (HB : exists n, Math_round B = IInt n /\ 0 <= n <= 255) ] ]
  end.
  - destruct (t <=? 66)%float eqn:E.
    + exists 255. split; [reflexivity | lia].
    + apply clamped_channel. eapply pow_channel_not_nan; eauto; reflexivity.
  - apply clamped_channel. destruct (t <=? 66)%float eqn:E.
    + eapply log_channel_not_nan; eauto; reflexivity.
    + eapply pow_channel_not_nan; eauto; reflexivity.
  - destruct (66 <=? t)%float eqn:E1; [| destruct (t <=? 19)%float eqn:E2].
    + exists 255. split; [reflexivity | lia].
    + exists 0. split; [reflexivity | lia].
    + apply clamped_channel. eapply log_channel_not_nan; eauto; reflexivity.
  - destruct HR as (r & -> & ?), HG as (g & -> & ?), HB as (b & -> & ?).
    exists r, g, b. auto.
Qed.

(** C4: for every Kelvin input in [1000, 40000] the result is [#]
    followed by one to six lowercase hexadecimal digits, the unpadded
    digits of three channel values that each lie in 0..255. *)
Theorem colorTemperatureToRGB_range (T : float) :
  (1000 <=? T)%float = true -> (T <=? 40000)%float = true ->
  hex_color_1_6 (colorTemperatureToRGB Math_log Math_pow T) = true /\
  exists r g b,
    0 <= r <= 255 /\ 0 <= g <= 255 /\ 0 <= b <= 255 /\
    colorTemperatureToRGB Math_log Math_pow T = "#" ++ toString 16 (IInt r) ++ toString 16 (IInt g)
                  ++ toString 16 (IInt b).
Proof.
  intros Hlo _.
  assert (Ht : signed false (Prim2SF (T / 100))).
  { eapply div_signed; [reflexivity |].
    destruct (leb_true_cases 1000 T _ _ eq_refl Hlo) as [E | (m & e & E & _)]; eauto. }
  destruct (colorTemperatureToRGB_channels T Ht) as (r & g & b & Hr & Hg & Hb & E).
  split; [| now exists r, g, b].
  rewrite E. apply channel_digits_app; now apply channel_toString.
Qed.

(** [Math.log(66)] is within 16 units in the last place of
    4.189654742026425, the Number nearest to ln 66. *)
Hypothesis Math_log_66 : In (Math_log 66) (ulp_ball 16 4.189654742026425).

Lemma low_temperature_all (n : Z) :
  0 <= n <= 1900 -> low_temperature (Z.to_nat n) = true.
Proof.
  intros H.
  assert (A : forallb low_temperature (seq 0 1901) = true)
    by (vm_compute; reflexivity).
  rewrite forallb_forall in A. apply A, in_seq. lia.
Qed.

(** At or below 1900 K, that is with a scaled temperature from 0 to 19, red
    is [ff], blue is the single digit [0], and green is one or two digits. *)
Lemma colorTemperatureToRGB_low (T : float) :
  signed false (Prim2SF (T / 100)) -> (T / 100 <=? 19)%float = true ->
  exists g,
    0 <= g <= 255 /\
    colorTemperatureToRGB Math_log Math_pow T = "#ff" ++ toString 16 (IInt g) ++ "0" /\
    (String.length (colorTemperatureToRGB Math_log Math_pow T) < 7)%nat.
Proof.
  intros Ht H19. unfold colorTemperatureToRGB. cbv zeta.
  set (t := (T / 100)%float) in *.
  destruct (leb_below t 19 66 _ _ _ _ eq_refl eq_refl ltac:(vm_compute; reflexivity)
              Ht H19) as [-> ->].
  rewrite H19.
  destruct (clamped_channel (99.4708025861 * Math_log t - 161.1195681661)%float)
    as (g & E & Hg); [eapply log_channel_not_nan; eauto; reflexivity |].
  exists g. rewrite E. split; [exact Hg |]. split; [reflexivity |].
  pose proof (channel_toString g Hg) as C. unfold channel_digits in C.
  apply andb_true_iff in C as [C _]. apply andb_true_iff in C as [_ C].
  apply Nat.leb_le in C.
  change (Math_round 255) with (IInt 255). change (Math_round 0) with (IInt 0).
  change (toString 16 (IInt 255)) with "ff". change (toString 16 (IInt 0)) with "0".
  rewrite !string_length_app. cbn [String.length]. lia.
Qed.

(** C2: no zero padding. For every integer Kelvin value up to 1900 the
    blue channel prints as the single digit [0], and the result, red [ff]
    and one or two green digits before it, has fewer than 7 characters. *)
Theorem colorTemperatureToRGB_unpadded (n : Z) :
  0 <= n <= 1900 ->
  exists g,
    0 <= g <= 255 /\
    colorTemperatureToRGB Math_log Math_pow (Number_of_Z n)
    = "#ff" ++ toString 16 (IInt g) ++ "0" /\
    (String.length (colorTemperatureToRGB Math_log Math_pow (Number_of_Z n)) < 7)%nat.
Proof.
  intros H. pose proof (low_temperature_all n H) as L.
  unfold low_temperature in L. rewrite Z2Nat.id in L by lia.
  apply andb_true_iff in L as [L1 L2].
  apply colorTemperatureToRGB_low; [| exact L1].
  destruct (Prim2SF _) as [[] | | | [] ? ?]; easy.
Qed.

(** C7: at 6600 K red and blue are exactly 255; the green value before
    clamping, [99.4708025861 * Math.log(66) - 161.1195681661], lies
    between 255 and 256, so the clamp makes the green channel 255 too and
    the result is [#ffffff]. *)
Theorem colorTemperatureToRGB_6600 :
  let green := (99.4708025861 * Math_log 66 - 161.1195681661)%float in
  (255 <? green)%float = true /\ (green <? 256)%float = true /\
  Math_round (Math_min (Math_max green 0) 255) = IInt 255 /\
  colorTemperatureToRGB Math_log Math_pow 6600
  = "#" ++ toString 16 (IInt 255)
        ++ toString 16 (Math_round (Math_min (Math_max green 0) 255))
        ++ toString 16 (IInt 255) /\
  colorTemperatureToRGB Math_log Math_pow 6600 = "#ffffff".
Proof.
  assert (A : forallb green_6600_saturates (ulp_ball 16 4.189654742026425) = true)
    by (vm_compute; reflexivity).
  rewrite forallb_forall in A. specialize (A _ Math_log_66).
  unfold green_6600_saturates, green_6600 in A. cbv zeta.
  set (green := (99.4708025861 * Math_log 66 - 161.1195681661)%float) in *.
  apply andb_true_iff in A as [A A3]. apply andb_true_iff in A as [A1 A2].
  assert (E : Math_round (Math_min (Math_max green 0) 255) = IInt 255).
  { destruct (Math_round _) as [| | z]; try discriminate.
    apply Z.eqb_eq in A3. now subst z. }
  assert (E' : colorTemperatureToRGB Math_log Math_pow 6600
               = "#" ++ toString 16 (IInt 255)
                     ++ toString 16 (Math_round (Math_min (Math_max green 0) 255))
                     ++ toString 16 (IInt 255)) by reflexivity.
  repeat split; try assumption. rewrite E', E. reflexivity.
Qed.

End ColorModelFacts.

(** ** The widget's methods *)

Ltac run_method :=
  unfold updateProperty, updateOn, updateColor, updateColorTemperature, updateIcon,
    setColor, setColor_settled, setColorTemperature, setColorTemperature_settled,
    displayed_href, set_property, assign_dom, detail_update, console_error,
    showOn, showOff, when, catch, bind, ret, throw, get, modify.

Ltac open_widget w :=
  destruct w as [fmt disp props rd sh du con];
  unfold detail_refreshed, cached, is_htmlDetail, with_properties, with_rendered,
    with_shownOn, with_detailUpdates, with_console;
  cbv beta iota zeta delta [rendered format displayedProperties detailUpdates
                              properties shownOn console].

Lemma detail_refreshed_properties (name : string) (w : ColorLight) :
  properties (detail_refreshed name w) = properties w.
Proof. unfold detail_refreshed. now destruct (is_htmlDetail w). Qed.

Lemma detail_refreshed_rendered (name : string) (w : ColorLight) :
  rendered (detail_refreshed name w) = rendered w.
Proof. unfold detail_refreshed. now destruct (is_htmlDetail w). Qed.

Section WidgetFacts.

Variable Math_log : float -> float.
Variable Math_pow : float -> float -> float.
Variable ToNumber_other : value -> float.
Variable API_headers : gmap string string.

#[local] Abbreviation getIconColor' :=
  (getIconColor Math_log Math_pow ToNumber_other).
#[local] Abbreviation updateIcon' :=
  (updateIcon Math_log Math_pow ToNumber_other).
#[local] Abbreviation updateColor' :=
  (updateColor Math_log Math_pow ToNumber_other).
#[local] Abbreviation updateColorTemperature' :=
  (updateColorTemperature Math_log Math_pow ToNumber_other).
#[local] Abbreviation updateProperty' :=
  (updateProperty Math_log Math_pow ToNumber_other).
#[local] Abbreviation setColor_settled' :=
  (setColor_settled Math_log Math_pow ToNumber_other).

(** [getIconColor] returns the cached colour whenever the cache has one,
    whatever is displayed. *)
Lemma getIconColor_cached_color (w : ColorLight) (c : value) :
  properties w !! "color" = Some c -> getIconColor' w = c.
Proof.
  intros H. unfold getIconColor, prop. rewrite H.
  rewrite bool_decide_eq_true_2 by eauto. reflexivity.
Qed.

(** Without a cached colour it is the conversion of the cached colour
    temperature, or white when there is none. *)
Lemma getIconColor_no_color (w : ColorLight) :
  properties w !! "color" = None ->
  getIconColor' w =
    match properties w !! "colorTemperature" with
    | Some t => JStr (colorTemperatureToRGB Math_log Math_pow
                        (ToNumber ToNumber_other t))
    | None => JStr "#ffffff"
    end.
Proof.
  intros H. unfold getIconColor, prop. rewrite H.
  rewrite bool_decide_eq_false_2 by (intros [? ?]; discriminate).
  destruct (properties w !! "colorTemperature") as [t |].
  - rewrite bool_decide_eq_true_2 by eauto. reflexivity.
  - rewrite bool_decide_eq_false_2 by (intros [? ?]; discriminate). reflexivity.
Qed.

Lemma updateIcon_properties (w : ColorLight) :
  properties (snd (updateIcon' w)) = properties w.
Proof.
  run_method. destruct (rendered w) as [d |]; [| reflexivity].
  cbn [rendered with_rendered].
  destruct (getIconColor' w) as [| | | | c |]; try reflexivity.
  destruct (isBrightColor c); reflexivity.
Qed.

(** What [updateIcon] does on a rendered widget whose icon colour is a
    string. *)
Lemma updateIcon_string (w : ColorLight) (d : Dom) (c : string) :
  rendered w = Some d -> getIconColor' w = JStr c ->
  updateIcon' w =
    (Normal tt,
     with_rendered
       (mkDom (background d)
          (if isBrightColor c then classList d ∪ {["bright-color"]}
           else classList d ∖ {["bright-color"]})
          (textContent d) (JStr c)) w).
Proof.
  intros Hd Hc. run_method. rewrite Hd, Hc.
  destruct (isBrightColor c); reflexivity.
Qed.

Lemma updateIcon_normal (w w' : ColorLight) :
  updateIcon' w = (Normal tt, w') ->
  exists d c, rendered w = Some d /\ getIconColor' w = JStr c.
Proof.
  run_method. destruct (rendered w) as [d |]; [| discriminate].
  destruct (getIconColor' w) as [| | | | c |]; try discriminate. eauto.
Qed.

(** [updateColor] with a truthy value, case by case. *)
Lemma updateColor_truthy (v : value) (w : ColorLight) :
  truthy v = true ->
  updateColor' v w =
    match rendered w with
    | None => (Normal tt, cached "color" v w)
    | Some _ =>
        if is_htmlDetail w && negb (bool_decide (is_Some (displayedProperties w !! "color")))
        then (Throw (TypeError "Cannot read property 'detail' of undefined"),
              cached "color" v w)
        else updateIcon' (detail_refreshed "color" (cached "color" v w))
    end.
Proof.
  intros Hv. unfold updateColor. rewrite Hv. cbn [negb].
  unfold set_property, detail_update, when, bind, ret, get, modify.
  open_widget w. destruct rd; [| reflexivity].
  destruct (String.eqb fmt "htmlDetail"); [| reflexivity].
  destruct (disp !! "color"); reflexivity.
Qed.

(** [updateColorTemperature], case by case. *)
Lemma updateColorTemperature_cases (v : value) (w : ColorLight) :
  let parsed := match v with JStr s => JNum (parseInt s 10) | _ => v end in
  updateColorTemperature' v w =
    match rendered w with
    | None => (Normal tt, cached "colorTemperature" parsed w)
    | Some _ =>
        if is_htmlDetail w
           && negb (bool_decide (is_Some (displayedProperties w !! "colorTemperature")))
        then (Throw (TypeError "Cannot read property 'detail' of undefined"),
              cached "colorTemperature" parsed w)
        else updateIcon' (detail_refreshed "colorTemperature"
                            (cached "colorTemperature" parsed w))
    end.
Proof.
  cbv zeta. unfold updateColorTemperature.
  unfold set_property, detail_update, when, bind, ret, get, modify.
  open_widget w. destruct rd; [| reflexivity].
  destruct (String.eqb fmt "htmlDetail"); [| reflexivity].
  destruct (disp !! "colorTemperature"); reflexivity.
Qed.

Lemma updateColor_properties (v : value) (w : ColorLight) :
  properties (snd (updateColor' v w))
  = if truthy v then <["color" := v]> (properties w) else properties w.
Proof.
  destruct (truthy v) eqn:Hv.
  - rewrite updateColor_truthy by assumption.
    destruct (rendered w); [| reflexivity].
    destruct (_ && _); [reflexivity |].
    now rewrite updateIcon_properties, detail_refreshed_properties.
  - unfold updateColor. rewrite Hv. reflexivity.
Qed.

Lemma updateColorTemperature_properties (v : value) (w : ColorLight) :
  properties (snd (updateColorTemperature' v w))
  = <["colorTemperature" := match v with JStr s => JNum (parseInt s 10) | _ => v end]>
      (properties w).
Proof.
  rewrite updateColorTemperature_cases.
  destruct (rendered w); [| reflexivity].
  destruct (_ && _); [reflexivity |].
  now rewrite updateIcon_properties, detail_refreshed_properties.
Qed.

(** C1: on the bulb described with [on] and [colorTemperature] only (no
    colour is displayed), once a [color] update has put a colour in the
    cache, [getIconColor] returns that cached colour; it is not the
    conversion of the cached colour temperature, which starts with [#ff]. *)
Theorem getIconColor_spurious_color :
  construct_displayedProperties
    (Some {[ "on" := "/things/lamp/properties/on";
             "colorTemperature" := "/things/lamp/properties/colorTemperature" ]})
    ∅
  = Normal (displayedProperties temperature_light) /\
  displayedProperties temperature_light !! "color" = None /\
  fst (updateProperty' "color" (JStr "#112233") temperature_light) = Normal tt /\
  let w := snd (updateProperty' "color" (JStr "#112233") temperature_light) in
  displayedProperties w = displayedProperties temperature_light /\
  properties w !! "colorTemperature" = Some (JNum 2700) /\
  getIconColor' w = JStr "#112233" /\
  getIconColor' w <> JStr (colorTemperatureToRGB Math_log Math_pow 2700).
Proof.
  split; [vm_compute; reflexivity |]. split; [vm_compute; reflexivity |].
  split; [vm_compute; reflexivity |]. cbv zeta.
  assert (E : getIconColor'
                (snd (updateProperty' "color" (JStr "#112233") temperature_light))
              = JStr "#112233").
  { apply getIconColor_cached_color. vm_compute. reflexivity. }
  split; [vm_compute; reflexivity |]. split; [vm_compute; reflexivity |].
  split; [exact E |]. rewrite E.
  assert (F : exists rest, colorTemperatureToRGB Math_log Math_pow 2700
                           = String "#" (String "f" rest))
    by (eexists; reflexivity).
  destruct F as [rest ->]. discriminate.
Qed.


(** C9: [setColorTemperature] parses a string argument with
    [parseInt(_, 10)] before it builds the payload; called with ["2700"]
    it sends the Number 2700 under [colorTemperature]. *)
Theorem setColorTemperature_parses (s href : string) (w : ColorLight) :
  displayedProperties w !! "colorTemperature" = Some href ->
  setColorTemperature API_headers (JStr s) w
  = (Normal (put API_headers href [("colorTemperature", JNum (parseInt s 10))]), w) /\
  setColorTemperature API_headers (JStr "2700") w
  = (Normal (mkRequest href "PUT" [("colorTemperature", JNum 2700)]
               (<["Content-Type" := "application/json"]> API_headers)), w).
Proof.
  intros H. unfold setColorTemperature, displayed_href, bind, get, ret.
  rewrite H. split; reflexivity.
Qed.

End WidgetFacts.

(** ** The properties at sample inputs *)

Lemma sample_log_defined (x : float) :
  is_nan x = false -> (x <? 0)%float = false -> is_nan (sample_log x) = false.
Proof.
  intros _ _. unfold sample_log.
  repeat match goal with |- context [(x =? ?c)%float] => destruct (x =? c)%float end;
    reflexivity.
Qed.

Lemma sample_pow_defined (x y : float) :
  is_nan x = false -> (x <? 0)%float = false -> is_finite y = true ->
  is_nan (sample_pow x y) = false.
Proof.
  intros _ _ _. unfold sample_pow.
  repeat match goal with |- context [if ?c then _ else _] => destruct c end;
    reflexivity.
Qed.

(** With the sample engine functions: 2700 K is [#ffa757], 10000 K is
    [#cadaff], and 1900 K is the five-digit [#ff840]. *)
Example colorTemperatureToRGB_samples :
  colorTemperatureToRGB sample_log sample_pow 2700 = "#ffa757" /\
  colorTemperatureToRGB sample_log sample_pow 10000 = "#cadaff" /\
  colorTemperatureToRGB sample_log sample_pow 1900 = "#ff840" /\
  colorTemperatureToRGB sample_log sample_pow 6600 = "#ffffff".
Proof. repeat split; vm_compute; reflexivity. Qed.

(** Brightness of a few colours. The channel sum of [#aae216] is exactly
    186 in the rationals, and comes out just above 186 in binary64. *)
Example isBrightColor_samples :
  isBrightColor "#ffffff" = true /\ isBrightColor "#000000" = false /\
  isBrightColor "#ff0000" = false /\ isBrightColor "#00ff00" = false /\
  isBrightColor "#aae216" = true /\
  luminance 255 0 0 = 76.24499999999999%float /\
  luminance 170 226 22 = 186.00000000000003%float.
Proof. repeat split; vm_compute; reflexivity. Qed.

(** An [on] update to [false] followed by a [color] update leaves the bulb
    shown off, its background cleared, and caches the new colour. *)
Example updateProperty_off_then_color :
  let w1 := snd (updateProperty sample_log sample_pow sample_ToNumber
                   "on" (JBool false) color_light) in
  let w2 := snd (updateProperty sample_log sample_pow sample_ToNumber
                   "color" (JStr "#445566") w1) in
  shownOn w2 = false /\ (background <$> rendered w2) = Some "" /\
  properties w2 !! "color" = Some (JStr "#445566").
Proof. vm_compute. repeat split. Qed.

Lemma colorTemperatureToRGB_unpadded_witness :
  0 <= 1900 <= 1900 /\
  exists g,
    0 <= g <= 255 /\
    colorTemperatureToRGB sample_log sample_pow (Number_of_Z 1900)
    = "#ff" ++ toString 16 (IInt g) ++ "0" /\
    (String.length (colorTemperatureToRGB sample_log sample_pow (Number_of_Z 1900)) < 7)%nat.
Proof.
  split; [lia |].
  apply (colorTemperatureToRGB_unpadded sample_log sample_pow sample_log_defined 1900).
  lia.
Defined.

Lemma colorTemperatureToRGB_range_witness :
  (1000 <=? 2700)%float = true /\ (2700 <=? 40000)%float = true /\
  hex_color_1_6 (colorTemperatureToRGB sample_log sample_pow 2700) = true /\
  exists r g b,
    0 <= r <= 255 /\ 0 <= g <= 255 /\ 0 <= b <= 255 /\
    colorTemperatureToRGB sample_log sample_pow 2700
    = "#" ++ toString 16 (IInt r) ++ toString 16 (IInt g) ++ toString 16 (IInt b).
Proof.
  split; [reflexivity |]. split; [reflexivity |].
  apply (colorTemperatureToRGB_range sample_log sample_pow sample_log_defined
           sample_pow_defined 2700); reflexivity.
Defined.

Lemma colorTemperatureToRGB_6600_witness :
  In (sample_log 66) (ulp_ball 16 4.189654742026425) /\
  colorTemperatureToRGB sample_log sample_pow 6600 = "#ffffff".
Proof.
  assert (H : In (sample_log 66) (ulp_ball 16 4.189654742026425))
    by (left; reflexivity).
  split; [exact H |].
  apply (colorTemperatureToRGB_6600 sample_log sample_pow H).
Defined.

(** C3 as stated fails: on the bulb with the cached colour [#112233],
    [updateOn(true)] completes normally and leaves the background ['white'],
    while [getIconColor] is [#112233]. *)
Lemma updateOn_background_is_not_icon_color :
  let w' := snd (updateOn (JBool true) color_light) in
  truthy (JBool true) = true /\
  fst (updateOn (JBool true) color_light) = Normal tt /\
  (background <$> rendered w') = Some "white" /\
  getIconColor sample_log sample_pow sample_ToNumber w' = JStr "#112233" /\
  (JStr <$> (background <$> rendered w'))
  <> Some (getIconColor sample_log sample_pow sample_ToNumber w').
Proof. vm_compute. repeat split. discriminate. Qed.


Lemma setColorTemperature_parses_witness :
  displayedProperties temperature_light !! "colorTemperature"
  = Some "/things/lamp/properties/colorTemperature" /\
  setColorTemperature ∅ (JStr "2700") temperature_light
  = (Normal (mkRequest "/things/lamp/properties/colorTemperature" "PUT"
               [("colorTemperature", JNum 2700)]
               (<["Content-Type" := "application/json"]> ∅)),
     temperature_light).
Proof.
  split; [reflexivity |].
  apply (proj2 (setColorTemperature_parses ∅ "2700" _ temperature_light eq_refl)).
Defined.

(** ** More facts about binary64 arithmetic *)

Lemma is_nan_eq (x : float) : is_nan x = true -> x = nan.
Proof.
  intros H. apply is_nan_Prim2SF in H. apply Prim2SF_inj. now rewrite H.
Qed.

(** A number that is not NaN is at or below, or at or above, a positive
    constant. *)
Lemma leb_total_const (t a : float) (ma : positive) (ea : Z) :
  Prim2SF a = S754_finite false ma ea ->
  is_nan t = false ->
  (t <=? a)%float = true \/ (a <=? t)%float = true.
Proof.
  intros Ha Ht. apply not_nan_Prim2SF in Ht.
  rewrite !FloatAxioms.leb_spec, Ha.
  pose proof (Prim2SF_bounded _ _ _ _ Ha) as Ba.
  destruct (Prim2SF t) as [s | s | | s m e] eqn:E; try easy.
  - now left.
  - destruct s; [now left | now right].
  - destruct s; [now left |].
    pose proof (Prim2SF_bounded _ _ _ _ E) as Bt.
    unfold SFleb. rewrite !SFcompare_finite_pos by assumption.
    destruct (Z.compare_spec (ival m e) (ival ma ea));
      destruct (Z.compare_spec (ival ma ea) (ival m e)); auto; lia.
Qed.

(** Above a positive constant a number that is not NaN is positive. *)
Lemma above_const_signed (t a : float) (ma : positive) (ea : Z) :
  Prim2SF a = S754_finite false ma ea ->
  is_nan t = false -> (t <=? a)%float = false ->
  signed false (Prim2SF t).
Proof.
  intros Ha Ht Hle. apply not_nan_Prim2SF in Ht.
  rewrite FloatAxioms.leb_spec, Ha in Hle.
  destruct (Prim2SF t) as [s | s | | s m e]; try easy; now destruct s.
Qed.

Lemma div_finite_not_nan (x c : float) (s : bool) (m : positive) (e : Z) :
  Prim2SF c = S754_finite s m e -> is_nan x = false -> is_nan (x / c) = false.
Proof.
  intros Hc Hx. apply not_nan_Prim2SF in Hx. apply not_nan_Prim2SF.
  rewrite div_spec, Hc. unfold SF64div, SFdiv.
  destruct (Prim2SF x) as [sx | sx | | sx mx ex]; try easy.
  destruct (SFdiv_core_binary _ _ _ _ _ _) as [[mz ez] lz] eqn:D.
  eapply signed_not_nan, binary_round_aux_signed.
  unfold SFdiv_core_binary in D.
  match type of D with
  | context [Z.div_eucl ?a ?b] =>
      assert (Ha : 0 <= a);
      [| pose proof (Z.div_pos a b Ha ltac:(lia)) as Hq;
         unfold Z.div in Hq; destruct (Z.div_eucl a b) as [q r];
         injection D as <- _ _; exact Hq]
  end.
  destruct (ex - e - _); [lia | | lia].
  apply Z.shiftl_nonneg. lia.
Qed.

(** The scaled temperature of a temperature that is zero or more is not
    NaN and not negative. *)
Lemma scaled_not_negative (T : float) :
  (0 <=? T)%float = true ->
  is_nan (T / 100) = false /\ (T / 100 <? 0)%float = false.
Proof.
  intros H. rewrite FloatAxioms.leb_spec in H.
  change (Prim2SF 0) with (S754_zero false) in H.
  destruct (Prim2SF T) as [s | s | | s m e] eqn:E; try easy.
  - assert (Z : Prim2SF (T / 100) = S754_zero s).
    { rewrite div_spec, E. cbn. now destruct s. }
    split; [apply not_nan_Prim2SF; now rewrite Z |].
    rewrite FloatAxioms.ltb_spec, Z. reflexivity.
  - destruct s; [easy |]. apply signed_not_negative.
    eapply div_signed; [reflexivity | now left].
  - destruct s; [easy |]. apply signed_not_negative.
    eapply div_signed; [reflexivity | right; eauto].
Qed.

Lemma channel_length (n : Z) :
  0 <= n <= 255 ->
  String.length (toString 16 (IInt n)) = if n <? 16 then 1%nat else 2%nat.
Proof.
  intros H.
  assert (A : forallb channel_length_ok (seq 0 256) = true)
    by (vm_compute; reflexivity).
  rewrite forallb_forall in A. specialize (A (Z.to_nat n)).
  unfold channel_length_ok in A. rewrite Z2Nat.id in A by lia.
  rewrite (proj1 (Nat.eqb_eq _ _) (A ltac:(apply in_seq; lia))).
  destruct (Z.ltb_spec n 16), (Nat.ltb_spec (Z.to_nat n) 16); auto; lia.
Qed.

Lemma channel_read_back (n : Z) :
  0 <= n <= 255 ->
  parseInt (toString 16 (IInt n)) 16 = Number_of_Z n.
Proof.
  intros H.
  assert (A : forallb channel_reads_back (seq 0 256) = true)
    by (vm_compute; reflexivity).
  rewrite forallb_forall in A. specialize (A (Z.to_nat n)).
  unfold channel_reads_back in A. rewrite Z2Nat.id in A by lia.
  apply Leibniz.eqb_spec, A, in_seq. lia.
Qed.

Lemma string_app_assoc (s1 s2 s3 : string) :
  (s1 ++ s2) ++ s3 = s1 ++ (s2 ++ s3).
Proof.
  induction s1 as [| c s1 IH]; [reflexivity |].
  change (String c s1 ++ s2) with (String c (s1 ++ s2)).
  change (String c (s1 ++ s2) ++ s3) with (String c ((s1 ++ s2) ++ s3)).
  now rewrite IH.
Qed.

Section ColorModelMore.

Variable Math_log : float -> float.
Variable Math_pow : float -> float -> float.

Hypothesis Math_log_defined : forall x,
  is_nan x = false -> (x <? 0)%float = false -> is_nan (Math_log x) = false.

Hypothesis Math_pow_defined : forall x y,
  is_nan x = false -> (x <? 0)%float = false -> is_finite y = true ->
  is_nan (Math_pow x y) = false.

(** X1: for every temperature that is zero or more, infinite included,
    the result is [#] and the unpadded digits of three channel values from
    0 to 255; it has the seven characters of [#rrggbb] exactly when every
    channel is 16 or more. *)
Theorem colorTemperatureToRGB_nonnegative (T : float) :
  (0 <=? T)%float = true ->
  exists r g b,
    0 <= r <= 255 /\ 0 <= g <= 255 /\ 0 <= b <= 255 /\
    colorTemperatureToRGB Math_log Math_pow T
    = "#" ++ toString 16 (IInt r) ++ toString 16 (IInt g) ++ toString 16 (IInt b) /\
    hex_color_1_6 (colorTemperatureToRGB Math_log Math_pow T) = true /\
    (String.length (colorTemperatureToRGB Math_log Math_pow T) = 7%nat
     <-> 16 <= r /\ 16 <= g /\ 16 <= b).
Proof.
  intros H0. destruct (scaled_not_negative T H0) as [Hnan Hneg].
  assert (C : exists r g b,
    0 <= r <= 255 /\ 0 <= g <= 255 /\ 0 <= b <= 255 /\
    colorTemperatureToRGB Math_log Math_pow T
    = "#" ++ toString 16 (IInt r) ++ toString 16 (IInt g) ++ toString 16 (IInt b)).
  { unfold colorTemperatureToRGB. cbv zeta. set (t := (T / 100)%float) in *.
    assert (H60 : (t <=? 66)%float = false -> signed false (Prim2SF (t - 60))).
    { intros E. eapply (sub_above_signed t 66 60); try reflexivity; try assumption.
      - vm_compute. discriminate.
      - eapply (above_const_signed t 66); eauto; reflexivity. }
    assert (H10 : (t <=? 19)%float = false -> signed false (Prim2SF (t - 10))).
    { intros E. eapply (sub_above_signed t 19 10); try reflexivity; try assumption.
      - vm_compute. discriminate.
      - eapply (above_const_signed t 19); eauto; reflexivity. }
    assert (Hlog : is_nan (99.4708025861 * Math_log t - 161.1195681661) = false).
    { eapply sub_finite_not_nan; [reflexivity |].
      eapply mul_finite_not_nan; [reflexivity |]. now apply Math_log_defined. }
    match goal with
    | |- context [toString 16 (Math_round ?R) ++ toString 16 (Math_round ?G)
                    ++ toString 16 (Math_round ?B)] =>
        assert (HR : exists n, Math_round R = IInt n /\ 0 <= n <= 255);
        [| assert (HG : exists n, Math_round G = IInt n /\ 0 <= n <= 255);
           [| assert (HB : exists n, Math_round B = IInt n /\ 0 <= n <= 255) ] ]
    end.
    - destruct (t <=? 66)%float eqn:E.
      + exists 255. split; [reflexivity | lia].
      + apply clamped_channel.
        eapply pow_channel_not_nan; eauto; reflexivity.
    - apply clamped_channel. destruct (t <=? 66)%float eqn:E.
      + exact Hlog.
      + eapply pow_channel_not_nan; eauto; reflexivity.
    - destruct (66 <=? t)%float eqn:E1; [| destruct (t <=? 19)%float eqn:E2].
      + exists 255. split; [reflexivity | lia].
      + exists 0. split; [reflexivity | lia].
      + apply clamped_channel.
        eapply log_channel_not_nan; eauto; reflexivity.
    - destruct HR as (r & -> & ?), HG as (g & -> & ?), HB as (b & -> & ?).
      exists r, g, b. auto. }
  destruct C as (r & g & b & Hr & Hg & Hb & E).
  exists r, g, b. repeat (split; [assumption |]). rewrite E. split.
  - apply channel_digits_app; now apply channel_toString.
  - change ("#" ++ ?x) with (String "#" x). cbn [String.length].
    rewrite !string_length_app, !channel_length by assumption.
    destruct (Z.ltb_spec r 16), (Z.ltb_spec g 16), (Z.ltb_spec b 16);
      split; intros; try lia; try discriminate.
Qed.

(** X2: whatever [Math.log] and [Math.pow] return, a temperature that is
    not NaN gives a colour whose red or whose blue channel is the saturated
    [ff]: the result starts with [#ff] or ends with [ff]. *)
Theorem colorTemperatureToRGB_saturated (T : float) :
  is_nan T = false ->
  (exists rest, colorTemperatureToRGB Math_log Math_pow T = "#ff" ++ rest) \/
  (exists front, colorTemperatureToRGB Math_log Math_pow T = front ++ "ff").
Proof.
  intros HT.
  assert (Ht : is_nan (T / 100) = false)
    by (eapply div_finite_not_nan; [reflexivity | exact HT]).
  unfold colorTemperatureToRGB. cbv zeta. set (t := (T / 100)%float) in *.
  destruct (leb_total_const t 66 _ _ eq_refl Ht) as [E | E]; rewrite E.
  - left. eexists. reflexivity.
  - right.
    change (toString 16 (Math_round 255)) with "ff".
    match goal with
    | |- context ["#" ++ ?r ++ ?g ++ "ff"] => exists ("#" ++ r ++ g)
    end.
    now rewrite !string_app_assoc.
Qed.

End ColorModelMore.

(** ** More facts about the brightness test *)

Lemma substring_beyond (s : string) (n m : nat) :
  (String.length s <= n)%nat -> String.substring n m s = "".
Proof.
  revert n. induction s as [| c s IH]; intros n H.
  - destruct n, m; reflexivity.
  - destruct n as [| n]; cbn in H; [lia |]. cbn. apply IH. lia.
Qed.

Lemma add_nan (x : float) : (x + nan)%float = nan.
Proof.
  apply is_nan_eq, is_nan_Prim2SF. rewrite add_spec.
  change (Prim2SF nan) with S754_nan. unfold SF64add, SFadd.
  now destruct (Prim2SF x).
Qed.

Lemma two_chars (s : string) :
  String.length s = 2%nat -> exists c1 c2, s = String c1 (String c2 "").
Proof.
  destruct s as [| c1 [| c2 [| c3 s]]]; try discriminate. eauto.
Qed.

(** X3: a colour string of five characters or fewer, such as the
    three-digit [#fff] or an unpadded [#ff00], is never bright: the blue
    channel is read at offset 5 and parses to NaN. *)
Theorem isBrightColor_short (c : string) :
  (String.length c <= 5)%nat -> isBrightColor c = false.
Proof.
  intros H. unfold isBrightColor, luminance, substr.
  rewrite (substring_beyond c 5 2 H).
  change (parseInt "" 16) with nan. change (nan * 0.114)%float with nan.
  now rewrite add_nan.
Qed.

(** X4: for channel values from 16 to 255 the brightness test reads back
    from their printed colour exactly those values: the digits written by
    [toString(16)] and read by [substr] and [parseInt(_, 16)] agree. *)
Theorem isBrightColor_reads_channels (r g b : Z) :
  16 <= r <= 255 -> 16 <= g <= 255 -> 16 <= b <= 255 ->
  isBrightColor ("#" ++ toString 16 (IInt r) ++ toString 16 (IInt g)
                     ++ toString 16 (IInt b))
  = (186 <? luminance (Number_of_Z r) (Number_of_Z g) (Number_of_Z b))%float.
Proof.
  intros Hr Hg Hb.
  rewrite <- (channel_read_back r), <- (channel_read_back g),
    <- (channel_read_back b) by lia.
  pose proof (channel_length r ltac:(lia)) as Lr.
  pose proof (channel_length g ltac:(lia)) as Lg.
  pose proof (channel_length b ltac:(lia)) as Lb.
  destruct (Z.ltb_spec r 16), (Z.ltb_spec g 16), (Z.ltb_spec b 16); try lia.
  destruct (two_chars _ Lr) as (r1 & r2 & ->).
  destruct (two_chars _ Lg) as (g1 & g2 & ->).
  destruct (two_chars _ Lb) as (b1 & b2 & ->).
  reflexivity.
Qed.

(** ** More facts about the widget's methods *)

Section WidgetMore.

Variable Math_log : float -> float.
Variable Math_pow : float -> float -> float.
Variable ToNumber_other : value -> float.
Variable API_headers : gmap string string.

#[local] Abbreviation getIconColor' :=
  (getIconColor Math_log Math_pow ToNumber_other).
#[local] Abbreviation updateIcon' :=
  (updateIcon Math_log Math_pow ToNumber_other).
#[local] Abbreviation updateColor' :=
  (updateColor Math_log Math_pow ToNumber_other).
#[local] Abbreviation updateColorTemperature' :=
  (updateColorTemperature Math_log Math_pow ToNumber_other).
#[local] Abbreviation updateProperty' :=
  (updateProperty Math_log Math_pow ToNumber_other).
#[local] Abbreviation setColor_settled' :=
  (setColor_settled Math_log Math_pow ToNumber_other).
#[local] Abbreviation setColorTemperature_settled' :=
  (setColorTemperature_settled Math_log Math_pow ToNumber_other).

(** [getIconColor] looks at the cache only. *)
Lemma getIconColor_cache (w1 w2 : ColorLight) :
  properties w1 = properties w2 -> getIconColor' w1 = getIconColor' w2.
Proof. intros H. unfold getIconColor. now rewrite H. Qed.

(** [updateIcon], case by case. *)
Lemma updateIcon_cases (w : ColorLight) :
  updateIcon' w =
    match rendered w with
    | None => (Throw (TypeError "Cannot set property of undefined"), w)
    | Some d =>
        match getIconColor' w with
        | JStr c =>
            (Normal tt,
             with_rendered
               (mkDom (background d)
                  (if isBrightColor c then classList d ∪ {["bright-color"]}
                   else classList d ∖ {["bright-color"]})
                  (textContent d) (JStr c)) w)
        | v =>
            (Throw (TypeError "iconColor.substr is not a function"),
             with_rendered (set_fill v d) w)
        end
    end.
Proof.
  run_method. destruct (rendered w) as [d |] eqn:Hd; [| reflexivity].
  cbn [rendered with_rendered].
  destruct (getIconColor' w) as [| | | | c |]; try reflexivity.
  destruct (isBrightColor c); reflexivity.
Qed.

(** [updateOn], case by case. *)
Lemma updateOn_cases (on : value) (w : ColorLight) :
  updateOn on w =
    match on with
    | JNull => (Normal tt, cached "on" JNull w)
    | _ =>
        match rendered w with
        | None =>
            (Throw (TypeError "Cannot set property of undefined"), cached "on" on w)
        | Some d =>
            let labelled :=
              with_rendered (set_textContent (if truthy on then "on" else "off") d)
                (cached "on" on w) in
            if is_htmlDetail w
               && negb (bool_decide (is_Some (displayedProperties w !! "on")))
            then (Throw (TypeError "Cannot read property 'detail' of undefined"),
                  labelled)
            else
              (Normal tt,
               with_shownOn (truthy on)
                 (with_rendered
                    (mkDom (if truthy on then "white" else "") (classList d)
                       (if truthy on then "on" else "off") (fill d))
                    (detail_refreshed "on" (cached "on" on w))))
        end
    end.
Proof.
  run_method. open_widget w. unfold set_textContent, set_background.
  destruct on; try reflexivity;
    (destruct rd as [d |]; [| reflexivity]);
    (destruct (String.eqb fmt "htmlDetail"); [destruct (disp !! "on") |]);
    try reflexivity;
    cbv beta iota zeta delta [rendered format displayedProperties detailUpdates
                                properties shownOn console background classList
                                textContent fill];
    match goal with
    | |- context [truthy ?v] => destruct (truthy v)
    end; reflexivity.
Qed.

(** [updateProperty] runs the handler of the name, and nothing for another
    name. *)
Lemma updateProperty_cases (name : string) (v : value) (w : ColorLight) :
  updateProperty' name v w =
    if String.eqb name "on" then updateOn v w
    else if String.eqb name "color" then updateColor' v w
    else if String.eqb name "colorTemperature" then updateColorTemperature' v w
    else (Normal tt, w).
Proof.
  unfold updateProperty, when, bind, ret.
  destruct (String.eqb_spec name "on") as [-> | _].
  - cbn [String.eqb Ascii.eqb Bool.eqb]. now destruct (updateOn v w) as [[[] | e] w'].
  - destruct (String.eqb_spec name "color") as [-> | _].
    + cbn [String.eqb Ascii.eqb Bool.eqb].
      now destruct (updateColor' v w) as [[[] | e] w'].
    + now destruct (String.eqb name "colorTemperature").
Qed.

(** X5: [updateProperty] ignores every name but [on], [color] and
    [colorTemperature]: the widget is returned unchanged and nothing is
    thrown, whatever the value. *)
Theorem updateProperty_other_name (name : string) (v : value) (w : ColorLight) :
  name <> "on" -> name <> "color" -> name <> "colorTemperature" ->
  updateProperty' name v w = (Normal tt, w).
Proof.
  intros H1 H2 H3. rewrite updateProperty_cases.
  destruct (String.eqb_spec name "on"); [contradiction |].
  destruct (String.eqb_spec name "color"); [contradiction |].
  destruct (String.eqb_spec name "colorTemperature"); [contradiction |].
  reflexivity.
Qed.

Ltac frame_cases Hd :=
  repeat split; cbn; try easy;
  try (intros E; rewrite Hd in E; discriminate).

Lemma same_frame_refl (w : ColorLight) : same_frame w w.
Proof. now repeat split. Qed.

Lemma detail_refreshed_frame (name : string) (w : ColorLight) :
  same_frame w (detail_refreshed name w).
Proof. unfold detail_refreshed. destruct (is_htmlDetail w); now repeat split. Qed.

Lemma updateIcon_frame (w : ColorLight) : same_frame w (snd (updateIcon' w)).
Proof.
  rewrite updateIcon_cases. destruct (rendered w) as [d |] eqn:Hd.
  - destruct (getIconColor' w); frame_cases Hd.
  - apply same_frame_refl.
Qed.

Lemma same_frame_trans (w1 w2 w3 : ColorLight) :
  same_frame w1 w2 -> same_frame w2 w3 -> same_frame w1 w3.
Proof.
  unfold same_frame. intros (? & ? & ? & ?) (? & ? & ? & ?).
  repeat split; try congruence; tauto.
Qed.

Lemma updateOn_frame (v : value) (w : ColorLight) :
  same_frame w (snd (updateOn v w)).
Proof.
  rewrite updateOn_cases. unfold same_frame. open_widget w. cbv zeta.
  destruct v, rd as [d |]; try (now repeat split);
    (destruct (String.eqb fmt "htmlDetail");
     [destruct (disp !! "on") |]); now repeat split.
Qed.

Lemma updateColor_frame (v : value) (w : ColorLight) :
  same_frame w (snd (updateColor' v w)).
Proof.
  destruct (truthy v) eqn:Hv.
  - rewrite updateColor_truthy by assumption.
    assert (C : same_frame w (cached "color" v w)) by now repeat split.
    destruct (rendered w); [| exact C]. destruct (_ && _); [exact C |].
    eapply same_frame_trans; [exact C |].
    eapply same_frame_trans; [apply (detail_refreshed_frame "color") |].
    apply updateIcon_frame.
  - unfold updateColor. rewrite Hv. apply same_frame_refl.
Qed.

Lemma updateColorTemperature_frame (v : value) (w : ColorLight) :
  same_frame w (snd (updateColorTemperature' v w)).
Proof.
  rewrite updateColorTemperature_cases.
  set (parsed := match v with JStr s => JNum (parseInt s 10) | _ => v end).
  assert (C : same_frame w (cached "colorTemperature" parsed w)) by now repeat split.
  destruct (rendered w); [| exact C]. destruct (_ && _); [exact C |].
  eapply same_frame_trans; [exact C |].
  eapply same_frame_trans; [apply (detail_refreshed_frame "colorTemperature") |].
  apply updateIcon_frame.
Qed.

(** X6: no property update, whether it returns or throws, changes the
    format, the displayed properties or the console log, and none creates
    or removes the widget's elements. *)
Theorem updateProperty_frame (name : string) (v : value) (w : ColorLight) :
  let w' := snd (updateProperty' name v w) in
  format w' = format w /\ displayedProperties w' = displayedProperties w /\
  console w' = console w /\ (rendered w' = None <-> rendered w = None).
Proof.
  cbv zeta. rewrite updateProperty_cases.
  destruct (String.eqb name "on"); [apply updateOn_frame |].
  destruct (String.eqb name "color"); [apply updateColor_frame |].
  destruct (String.eqb name "colorTemperature");
    [apply updateColorTemperature_frame | apply same_frame_refl].
Qed.

(** X7: [updateIcon] writes only the icon fill and the class
    ['bright-color']: the cache, the on state, the log, the background, the
    label and every other class of the bulb are as before, whether it
    returns or throws. *)
Theorem updateIcon_writes (w : ColorLight) (d : Dom) :
  rendered w = Some d ->
  let w' := snd (updateIcon' w) in
  properties w' = properties w /\ shownOn w' = shownOn w /\
  detailUpdates w' = detailUpdates w /\ console w' = console w /\
  exists d',
    rendered w' = Some d' /\ fill d' = getIconColor' w /\
    background d' = background d /\ textContent d' = textContent d /\
    forall class, class <> "bright-color" ->
                  (class ∈ classList d' <-> class ∈ classList d).
Proof.
  intros Hd. cbv zeta. rewrite updateIcon_cases, Hd.
  destruct (getIconColor' w) as [| | | | c |] eqn:Hc;
    (split; [reflexivity |]); (split; [reflexivity |]);
    (split; [reflexivity |]); (split; [reflexivity |]);
    eexists; (split; [reflexivity |]); (split; [reflexivity |]);
    (split; [reflexivity |]); (split; [reflexivity |]);
    intros class Hclass; try reflexivity.
  cbn [classList]. destruct (isBrightColor c).
  - rewrite elem_of_union, elem_of_singleton. tauto.
  - rewrite elem_of_difference, elem_of_singleton. tauto.
Qed.

(** X8: [updateIcon] is idempotent: run a second time it completes the
    same way and leaves the widget as the first run left it. *)
Theorem updateIcon_idempotent (w : ColorLight) :
  updateIcon' (snd (updateIcon' w)) = updateIcon' w.
Proof.
  rewrite (updateIcon_cases w).
  destruct (rendered w) as [d |] eqn:Hd.
  - destruct (getIconColor' w) as [| | | | c |] eqn:Hc; cbn [snd];
      rewrite updateIcon_cases; cbn [rendered with_rendered];
      match goal with
      | |- context [getIconColor' (with_rendered ?x w)] =>
          change (getIconColor' (with_rendered x w)) with (getIconColor' w)
      end; rewrite Hc; try reflexivity.
    destruct (isBrightColor c);
      cbn [background classList textContent fill]; unfold with_rendered; cbn.
    + now rewrite <- (assoc_L (∪)), (idemp_L (∪)).
    + replace (classList d ∖ {["bright-color"]} ∖ {["bright-color"]})
        with (classList d ∖ {["bright-color"]}); [reflexivity |].
      apply set_eq. intros x. rewrite !elem_of_difference. tauto.
  - cbn [snd]. rewrite updateIcon_cases, Hd. reflexivity.
Qed.

(** X9: on a widget without its elements (the ['svg'] format), a colour
    or colour temperature update only caches the value and returns; an [on]
    update caches the value too, but unless the value is [null] it then
    throws a [TypeError]: [updateOn] has no guard of its own. *)
Theorem updates_without_elements (v : value) (w : ColorLight) :
  rendered w = None ->
  updateColor' v w = (Normal tt, if truthy v then cached "color" v w else w) /\
  updateColorTemperature' v w
  = (Normal tt,
     cached "colorTemperature"
       (match v with JStr s => JNum (parseInt s 10) | _ => v end) w) /\
  (v = JNull -> updateOn v w = (Normal tt, cached "on" v w)) /\
  (v <> JNull -> exists m, updateOn v w = (Throw (TypeError m), cached "on" v w)).
Proof.
  intros Hd. split; [| split; [| split]].
  - destruct (truthy v) eqn:Hv.
    + now rewrite updateColor_truthy, Hd.
    + unfold updateColor. now rewrite Hv.
  - now rewrite updateColorTemperature_cases, Hd.
  - intros ->. reflexivity.
  - intros Hn. rewrite updateOn_cases, Hd. destruct v; try congruence; eauto.
Qed.

(** The cache after an [on] update, however it completes. *)
Lemma updateOn_properties (v : value) (w : ColorLight) :
  properties (snd (updateOn v w)) = <["on" := v]> (properties w).
Proof.
  rewrite updateOn_cases.
  destruct v; try reflexivity;
    (destruct (rendered w); [| reflexivity]); cbv zeta;
    destruct (_ && _); cbn [snd]; try reflexivity;
    cbn; now rewrite detail_refreshed_properties.
Qed.

Lemma detail_refreshed_shownOn (name : string) (w : ColorLight) :
  shownOn (detail_refreshed name w) = shownOn w.
Proof. unfold detail_refreshed. now destruct (is_htmlDetail w). Qed.

(** Caching another property does not change the icon colour. *)
Lemma getIconColor_insert_other (name : string) (v : value) (w w' : ColorLight) :
  name <> "color" -> name <> "colorTemperature" ->
  properties w' = <[name := v]> (properties w) ->
  getIconColor' w' = getIconColor' w.
Proof.
  intros H1 H2 E. unfold getIconColor, prop. rewrite E.
  now rewrite !lookup_insert_ne by assumption.
Qed.

(** X10: the callbacks of [setColor] and of [setColorTemperature] never
    throw, whatever the response and the state of the widget: an exception
    of the update they run is caught like a failed request. They add at
    most one line to the console log. *)
Theorem settled_never_throws (response : settled) (w : ColorLight) :
  (exists w',
     setColor_settled' response w = (Normal tt, w') /\
     (console w' = console w \/ exists line, console w' = line :: console w)) /\
  (exists w',
     setColorTemperature_settled' response w = (Normal tt, w') /\
     (console w' = console w \/ exists line, console w' = line :: console w)).
Proof.
  split.
  - unfold setColor_settled, catch, bind, throw, console_error, modify.
    destruct response as [reason | status [json | e]];
      try destruct (status =? 200); eauto.
    pose proof (updateColor_frame (prop json "color") w) as (_ & _ & C & _).
    destruct (updateColor' (prop json "color") w) as [[[] | e] w3];
      cbn [snd] in C; eexists; split; try reflexivity; cbn [console with_console];
      rewrite C; eauto.
  - unfold setColorTemperature_settled, catch, bind, throw, console_error, modify.
    destruct response as [reason | status [json | e]];
      try destruct (status =? 200); eauto.
    pose proof (updateColorTemperature_frame (prop json "colorTemperature") w)
      as (_ & _ & C & _).
    destruct (updateColorTemperature' (prop json "colorTemperature") w)
      as [[[] | e] w3];
      cbn [snd] in C; eexists; split; try reflexivity; cbn [console with_console];
      rewrite C; eauto.
Qed.


(** X12: a 200 response whose body lacks the property. For [color] the
    update is skipped: the widget is unchanged and nothing is logged. For
    [colorTemperature] there is no such guard: the cached colour temperature
    is overwritten with [undefined]. *)
Theorem settled_missing_key (json : gmap string value) (w : ColorLight) :
  (json !! "color" = None ->
   setColor_settled' (Fulfilled 200 (Normal json)) w = (Normal tt, w)) /\
  (json !! "colorTemperature" = None ->
   properties (snd (setColorTemperature_settled' (Fulfilled 200 (Normal json)) w))
   !! "colorTemperature"
   = Some JUndefined).
Proof.
  split; intros H.
  - unfold setColor_settled, catch, bind, prop. cbn [Z.eqb Pos.eqb].
    rewrite H. reflexivity.
  - unfold setColorTemperature_settled, catch, bind, console_error, modify, prop.
    cbn [Z.eqb Pos.eqb]. rewrite H. cbn [default].
    pose proof (updateColorTemperature_properties Math_log Math_pow ToNumber_other
                  JUndefined w) as P.
    destruct (updateColorTemperature' JUndefined w) as [[[] | e] w3];
      cbn [snd] in *; cbn [properties with_console]; rewrite P;
      apply lookup_insert_eq.
Qed.

(** X14: the round trip of a colour. On a rendered widget, a 200 response
    that echoes a non-empty string colour leaves that colour in the cache,
    as the icon colour and as the icon fill, sets ['bright-color'] by its
    brightness, and logs nothing. *)
Theorem setColor_echo (c : string) (json : gmap string value)
    (w : ColorLight) (d : Dom) :
  rendered w = Some d ->
  (is_htmlDetail w = true -> is_Some (displayedProperties w !! "color")) ->
  c <> "" ->
  json !! "color" = Some (JStr c) ->
  exists w' d',
    setColor_settled' (Fulfilled 200 (Normal json)) w = (Normal tt, w') /\
    properties w' = <["color" := JStr c]> (properties w) /\
    getIconColor' w' = JStr c /\
    console w' = console w /\
    rendered w' = Some d' /\ fill d' = JStr c /\
    ("bright-color" ∈ classList d' <-> isBrightColor c = true).
Proof.
  intros Hd Hdetail Hc Hjson.
  assert (Hv : truthy (JStr c) = true).
  { cbn. destruct (String.eqb_spec c ""); [contradiction | reflexivity]. }
  unfold setColor_settled, catch, bind, prop. cbn [Z.eqb Pos.eqb].
  rewrite Hjson. cbn [default].
  rewrite updateColor_truthy, Hd by assumption.
  assert (E : is_htmlDetail w
              && negb (bool_decide (is_Some (displayedProperties w !! "color")))
              = false).
  { destruct (is_htmlDetail w); [| reflexivity].
    now rewrite bool_decide_eq_true_2 by auto. }
  rewrite E.
  erewrite updateIcon_string;
    [| rewrite detail_refreshed_rendered; exact Hd
     | apply getIconColor_cached_color; rewrite detail_refreshed_properties;
       apply lookup_insert_eq].
  do 2 eexists. split; [reflexivity |].
  split; [cbn; now rewrite detail_refreshed_properties |].
  split; [apply getIconColor_cached_color; cbn;
          rewrite detail_refreshed_properties; apply lookup_insert_eq |].
  split; [cbn; unfold detail_refreshed; now destruct (is_htmlDetail _) |].
  split; [reflexivity |]. split; [reflexivity |].
  cbn [classList]. destruct (isBrightColor c); split; try easy.
  - intros _. apply elem_of_union. right. now apply elem_of_singleton.
  - intros [_ Hn]%elem_of_difference. exfalso. apply Hn. now apply elem_of_singleton.
Qed.

(** X15: on a rendered widget which, if its format is ['htmlDetail'],
    displays [on] and [color], an [on] update to [false] followed by a
    [color] update with a non-empty string both return, and leave the bulb
    shown off, labelled [off] and without background, while the new colour
    is cached and fills the icon. *)
Theorem update_off_then_color (c : string) (w : ColorLight) (d : Dom) :
  rendered w = Some d ->
  (is_htmlDetail w = true ->
   is_Some (displayedProperties w !! "on")
   /\ is_Some (displayedProperties w !! "color")) ->
  c <> "" ->
  let w1 := snd (updateProperty' "on" (JBool false) w) in
  exists w2 d2,
    fst (updateProperty' "on" (JBool false) w) = Normal tt /\
    updateProperty' "color" (JStr c) w1 = (Normal tt, w2) /\
    shownOn w2 = false /\
    properties w2 !! "on" = Some (JBool false) /\
    properties w2 !! "color" = Some (JStr c) /\
    rendered w2 = Some d2 /\
    background d2 = "" /\ textContent d2 = "off" /\ fill d2 = JStr c.
Proof.
  intros Hd Hdetail Hc. cbv zeta.
  assert (Hv : truthy (JStr c) = true).
  { cbn. destruct (String.eqb_spec c ""); [contradiction | reflexivity]. }
  rewrite !updateProperty_cases. cbn [String.eqb Ascii.eqb Bool.eqb].
  rewrite updateOn_cases, Hd. cbv zeta.
  assert (E1 : is_htmlDetail w
               && negb (bool_decide (is_Some (displayedProperties w !! "on")))
               = false).
  { destruct (is_htmlDetail w); [| reflexivity].
    now rewrite bool_decide_eq_true_2 by (now apply Hdetail). }
  rewrite E1. cbn [fst snd truthy].
  set (w1 := with_shownOn false _).
  assert (Hd1 : rendered w1 = Some (mkDom "" (classList d) "off" (fill d)))
    by reflexivity.
  assert (F : is_htmlDetail w1 = is_htmlDetail w).
  { unfold w1, detail_refreshed. now destruct (is_htmlDetail _) eqn:?. }
  assert (D : displayedProperties w1 = displayedProperties w).
  { unfold w1, detail_refreshed. now destruct (is_htmlDetail _). }
  rewrite updateColor_truthy, Hd1, F, D by assumption.
  assert (E2 : is_htmlDetail w
               && negb (bool_decide (is_Some (displayedProperties w !! "color")))
               = false).
  { destruct (is_htmlDetail w); [| reflexivity].
    now rewrite bool_decide_eq_true_2 by (now apply Hdetail). }
  rewrite E2.
  erewrite updateIcon_string;
    [| rewrite detail_refreshed_rendered; exact Hd1
     | apply getIconColor_cached_color; rewrite detail_refreshed_properties;
       apply lookup_insert_eq].
  do 2 eexists. split; [reflexivity |]. split; [reflexivity |].
  split; [cbn [shownOn with_rendered]; now rewrite detail_refreshed_shownOn |].
  assert (P : forall k, properties (detail_refreshed "color" (cached "color" (JStr c) w1)) !! k
                        = <["color" := JStr c]> (<["on" := JBool false]> (properties w)) !! k).
  { intros k. rewrite detail_refreshed_properties. cbn.
    now rewrite detail_refreshed_properties. }
  split; [cbn [properties with_rendered]; rewrite P;
          now rewrite lookup_insert_ne, lookup_insert_eq |].
  split; [cbn [properties with_rendered]; rewrite P; apply lookup_insert_eq |].
  repeat split.
Qed.

End WidgetMore.

(** ** The constructor's displayed properties, and the markup *)

(** X16: from a description with properties the constructor displays
    [on], and [color] or else [colorTemperature], never both: a described
    [color] hides a described [colorTemperature]. It throws exactly when
    [on] is not described. On a bulb described with both, every
    [setColorTemperature] therefore throws a [TypeError]. *)
Theorem construct_displayedProperties_exclusive
    (API_headers : gmap string string) (props : gmap string string) :
  (props !! "on" = None <->
   exists m, construct_displayedProperties (Some props) ∅ = Throw (TypeError m)) /\
  forall displayed,
    construct_displayedProperties (Some props) ∅ = Normal displayed ->
    displayed !! "on" = props !! "on" /\ is_Some (displayed !! "on") /\
    displayed !! "color" = props !! "color" /\
    displayed !! "colorTemperature"
    = match props !! "color" with
      | Some _ => None
      | None => props !! "colorTemperature"
      end /\
    (forall name, name <> "on" -> name <> "color" -> name <> "colorTemperature" ->
                  displayed !! name = None) /\
    (is_Some (props !! "color") ->
     forall v w, displayedProperties w = displayed ->
                 exists m, setColorTemperature API_headers v w
                           = (Throw (TypeError m), w)).
Proof.
  unfold construct_displayedProperties. split.
  - destruct (props !! "on") as [h |]; split; try easy.
    + intros [m H]. destruct (props !! "color"); [discriminate |].
      destruct (props !! "colorTemperature"); discriminate.
    + eauto.
  - intros displayed H.
    destruct (props !! "on") as [h |] eqn:Hon; [| discriminate].
    destruct (props !! "color") as [c |] eqn:Hc;
      [| destruct (props !! "colorTemperature") as [t |] eqn:Ht];
      injection H as <-; repeat split;
      rewrite ?lookup_insert_eq, ?lookup_insert_ne, ?lookup_insert_eq,
        ?lookup_insert_ne, ?lookup_empty by easy; try easy; eauto;
      try (intros; rewrite !lookup_insert_ne, lookup_empty by congruence;
           reflexivity);
      try (intros [? ?]; discriminate).
    intros _ v w Hw.
    unfold setColorTemperature, displayed_href, bind, get, throw.
    rewrite Hw, lookup_insert_ne, lookup_insert_ne, lookup_empty by easy. eauto.
Qed.

Section IconViewFacts.

Variable Math_log : float -> float.
Variable Math_pow : float -> float -> float.
Variable ToNumber_other : value -> float.
Variable ToString_other : value -> string.
Variable icon_markup : string.

#[local] Abbreviation iconView' :=
  (iconView Math_log Math_pow ToNumber_other ToString_other icon_markup).

(** X17: the markup follows the cache, not the elements. Without a cached
    [on] its style is empty. After an [on] update, however that completes,
    the style is empty for a falsy value and otherwise [background: ]
    followed by the icon colour, which the update has not changed; the
    literal ['white'] that [updateOn] gives the element does not appear. *)
Theorem iconView_after_updateOn (on : value) (w : ColorLight) :
  (properties w !! "on" = None ->
   iconView' w
   = "<div class=" ++ dq ++ "color-light" ++ dq ++ " style=" ++ dq ++ dq ++ ">"
       ++ icon_markup) /\
  iconView' (snd (updateOn on w))
  = "<div class=" ++ dq ++ "color-light" ++ dq ++ " style=" ++ dq
      ++ (if truthy on
          then "background: "
               ++ ToString ToString_other
                    (getIconColor Math_log Math_pow ToNumber_other w)
          else "")
      ++ dq ++ ">" ++ icon_markup.
Proof.
  split.
  - intros H. unfold iconView, prop. rewrite H. reflexivity.
  - pose proof (updateOn_properties on w) as P. unfold iconView, prop.
    rewrite (getIconColor_insert_other Math_log Math_pow ToNumber_other
               "on" on w _ ltac:(easy) ltac:(easy) P).
    rewrite P, lookup_insert_eq. reflexivity.
Qed.

End IconViewFacts.

Section WidgetEdges.

Variable Math_log : float -> float.
Variable Math_pow : float -> float -> float.
Variable ToNumber_other : value -> float.

#[local] Abbreviation getIconColor'' :=
  (getIconColor Math_log Math_pow ToNumber_other).
#[local] Abbreviation updateColor'' :=
  (updateColor Math_log Math_pow ToNumber_other).
#[local] Abbreviation updateColorTemperature'' :=
  (updateColorTemperature Math_log Math_pow ToNumber_other).
#[local] Abbreviation setColor_settled'' :=
  (setColor_settled Math_log Math_pow ToNumber_other).

(** X18: a truthy colour that is not a string, such as a Number. On a
    rendered widget which, if its format is ['htmlDetail'], displays
    [color], [updateColor] caches it, assigns it to the icon fill, and then
    throws a [TypeError] with the class list untouched. As the [color] of a
    200 response it thus both updates the cache and is logged as an
    error. *)
Theorem updateColor_not_a_string (v : value) (json : gmap string value)
    (w : ColorLight) (d : Dom) :
  rendered w = Some d ->
  (is_htmlDetail w = true -> is_Some (displayedProperties w !! "color")) ->
  truthy v = true ->
  (forall s, v <> JStr s) ->
  (exists m w',
     updateColor'' v w = (Throw (TypeError m), w') /\
     properties w' = <["color" := v]> (properties w) /\
     rendered w' = Some (mkDom (background d) (classList d) (textContent d) v)) /\
  (json !! "color" = Some v ->
   exists line w',
     setColor_settled'' (Fulfilled 200 (Normal json)) w = (Normal tt, w') /\
     properties w' !! "color" = Some v /\
     console w' = line :: console w).
Proof.
  intros Hd Hdetail Hv Hs.
  assert (E : is_htmlDetail w
              && negb (bool_decide (is_Some (displayedProperties w !! "color")))
              = false).
  { destruct (is_htmlDetail w); [| reflexivity].
    now rewrite bool_decide_eq_true_2 by auto. }
  assert (U : exists m,
    updateColor'' v w
    = (Throw (TypeError m),
       with_rendered (set_fill v d) (detail_refreshed "color" (cached "color" v w)))).
  { rewrite updateColor_truthy, Hd, E, updateIcon_cases by assumption.
    rewrite detail_refreshed_rendered. cbn [rendered cached with_properties].
    rewrite Hd.
    rewrite (getIconColor_cached_color Math_log Math_pow ToNumber_other _ v)
      by (rewrite detail_refreshed_properties; apply lookup_insert_eq).
    destruct v; eauto. now destruct (Hs s). }
  destruct U as [m U]. split.
  - do 2 eexists. split; [exact U |].
    split; [cbn; now rewrite detail_refreshed_properties | reflexivity].
  - intros Hjson. unfold setColor_settled, catch, bind, console_error, modify, prop.
    cbn [Z.eqb Pos.eqb]. rewrite Hjson.
    change (default JUndefined (Some v)) with v. rewrite U.
    do 2 eexists. split; [reflexivity |]. split.
    + cbn. rewrite detail_refreshed_properties. apply lookup_insert_eq.
    + cbn. unfold detail_refreshed. now destruct (is_htmlDetail _).
Qed.

(** What a colour temperature update does to the icon when no colour is
    cached. *)
Lemma updateColorTemperature_fill (v : value) (w : ColorLight) (d : Dom) :
  rendered w = Some d ->
  (is_htmlDetail w = true ->
   is_Some (displayedProperties w !! "colorTemperature")) ->
  properties w !! "color" = None ->
  let parsed := match v with JStr s => JNum (parseInt s 10) | _ => v end in
  let rgb := colorTemperatureToRGB Math_log Math_pow
               (ToNumber ToNumber_other parsed) in
  updateColorTemperature'' v w
  = (Normal tt,
     with_rendered
       (mkDom (background d)
          (if isBrightColor rgb then classList d ∪ {["bright-color"]}
           else classList d ∖ {["bright-color"]})
          (textContent d) (JStr rgb))
       (detail_refreshed "colorTemperature" (cached "colorTemperature" parsed w))).
Proof.
  intros Hd Hdetail Hc. cbv zeta. rewrite updateColorTemperature_cases, Hd.
  assert (E : is_htmlDetail w
              && negb (bool_decide
                         (is_Some (displayedProperties w !! "colorTemperature")))
              = false).
  { destruct (is_htmlDetail w); [| reflexivity].
    now rewrite bool_decide_eq_true_2 by auto. }
  rewrite E. apply updateIcon_string.
  - now rewrite detail_refreshed_rendered.
  - rewrite getIconColor_no_color; rewrite detail_refreshed_properties; cbn.
    + now rewrite lookup_insert_eq.
    + now rewrite lookup_insert_ne.
Qed.

(** The conversion of NaN, for an engine whose [Math.log] and [Math.pow]
    give NaN for NaN. *)
Lemma colorTemperatureToRGB_nan :
  is_nan (Math_log nan) = true ->
  (forall y, (y =? 0)%float = false -> is_nan (Math_pow nan y) = true) ->
  colorTemperatureToRGB Math_log Math_pow nan = "#NaNNaNNaN".
Proof.
  intros Hlog Hpow. unfold colorTemperatureToRGB. cbv zeta.
  change (nan / 100)%float with nan. change (nan <=? 66)%float with false.
  change (66 <=? nan)%float with false. change (nan <=? 19)%float with false.
  change (nan - 60)%float with nan. change (nan - 10)%float with nan.
  cbv iota.
  rewrite (is_nan_eq _ (Hpow (-0.1332047592)%float eq_refl)).
  rewrite (is_nan_eq _ (Hpow (-0.0755148492)%float eq_refl)).
  rewrite (is_nan_eq _ Hlog). reflexivity.
Qed.

(** X19: without a cached colour, a colour temperature update on a
    rendered widget which, if its format is ['htmlDetail'], displays
    [colorTemperature], never throws, whatever the value: the icon is
    filled with the conversion of the value as a Number, and
    ['bright-color'] set by its brightness. When that Number is NaN (the
    value is [undefined], or a string without a leading digit) and the
    engine's [Math.log] and [Math.pow] give NaN for NaN, the fill is
    [#NaNNaNNaN] and ['bright-color'] is removed. *)
Theorem updateColorTemperature_icon (v : value) (w : ColorLight) (d : Dom) :
  rendered w = Some d ->
  (is_htmlDetail w = true ->
   is_Some (displayedProperties w !! "colorTemperature")) ->
  properties w !! "color" = None ->
  let parsed := match v with JStr s => JNum (parseInt s 10) | _ => v end in
  let rgb := colorTemperatureToRGB Math_log Math_pow
               (ToNumber ToNumber_other parsed) in
  exists w' d',
    updateColorTemperature'' v w = (Normal tt, w') /\
    getIconColor'' w' = JStr rgb /\
    rendered w' = Some d' /\ fill d' = JStr rgb /\
    ("bright-color" ∈ classList d' <-> isBrightColor rgb = true) /\
    (is_nan (ToNumber ToNumber_other parsed) = true ->
     is_nan (Math_log nan) = true ->
     (forall y, (y =? 0)%float = false -> is_nan (Math_pow nan y) = true) ->
     rgb = "#NaNNaNNaN" /\ "bright-color" ∉ classList d').
Proof.
  intros Hd Hdetail Hc. cbv zeta.
  rewrite (updateColorTemperature_fill v w d Hd Hdetail Hc).
  set (parsed := match v with JStr s => JNum (parseInt s 10) | _ => v end).
  set (rgb := colorTemperatureToRGB Math_log Math_pow (ToNumber ToNumber_other parsed)).
  assert (A : "bright-color" ∈ (if isBrightColor rgb
                then classList d ∪ {["bright-color"]}
                else classList d ∖ {["bright-color"]}) <-> isBrightColor rgb = true).
  { destruct (isBrightColor rgb); split; try easy.
    - intros _. apply elem_of_union. right. now apply elem_of_singleton.
    - intros [_ Hn]%elem_of_difference. exfalso. apply Hn.
      now apply elem_of_singleton. }
  do 2 eexists. split; [reflexivity |]. split.
  { rewrite getIconColor_no_color;
      cbn [properties with_rendered]; rewrite detail_refreshed_properties; cbn.
    - now rewrite lookup_insert_eq.
    - now rewrite lookup_insert_ne. }
  split; [reflexivity |]. split; [reflexivity |]. split; [exact A |].
  intros Hnan Hlog Hpow.
  assert (R : rgb = "#NaNNaNNaN").
  { unfold rgb. rewrite (is_nan_eq _ Hnan). now apply colorTemperatureToRGB_nan. }
  split; [exact R |]. cbn [classList]. rewrite A, R. discriminate.
Qed.

(** X20: responses are applied as they arrive, with nothing to tell a
    stale one: a 200 response carrying a truthy colour overwrites the colour
    cached by a later [color] update. *)
Theorem stale_response_overwrites (a b : value) (json : gmap string value)
    (w : ColorLight) :
  truthy a = true -> truthy b = true ->
  json !! "color" = Some a ->
  let w1 := snd (updateColor'' b w) in
  properties w1 !! "color" = Some b /\
  properties (snd (setColor_settled'' (Fulfilled 200 (Normal json)) w1)) !! "color"
  = Some a.
Proof.
  intros Ha Hb Hjson. cbv zeta. split.
  - rewrite updateColor_properties, Hb. apply lookup_insert_eq.
  - unfold setColor_settled, catch, bind, console_error, modify, prop.
    cbn [Z.eqb Pos.eqb]. rewrite Hjson.
    change (default JUndefined (Some a)) with a.
    pose proof (updateColor_properties Math_log Math_pow ToNumber_other a
                  (snd (updateColor'' b w))) as P.
    rewrite Ha in P.
    destruct (updateColor'' a (snd (updateColor'' b w))) as [[[] | e] w3];
      cbn [snd] in *; cbn [properties with_console]; rewrite P;
      apply lookup_insert_eq.
Qed.

(** X21: an [on] update never changes the colour of the icon: however it
    completes, the icon colour computed from the cache, the icon fill and
    the class list are as before. *)
Theorem updateOn_keeps_icon (on : value) (w : ColorLight) :
  let w' := snd (updateOn on w) in
  getIconColor'' w' = getIconColor'' w /\
  forall d,
    rendered w = Some d ->
    exists d', rendered w' = Some d' /\ fill d' = fill d
               /\ classList d' = classList d.
Proof.
  cbv zeta. split.
  - apply (getIconColor_insert_other Math_log Math_pow ToNumber_other "on" on);
      try easy. apply updateOn_properties.
  - intros d Hd. rewrite updateOn_cases.
    destruct on; try (exists d; repeat split; exact Hd);
      rewrite Hd; cbv zeta; destruct (_ && _); cbn [snd];
      eexists; repeat split.
Qed.

End WidgetEdges.

(** ** The further properties at sample inputs *)

Lemma colorTemperatureToRGB_nonnegative_witness :
  (0 <=? 0)%float = true /\
  exists r g b,
    colorTemperatureToRGB sample_log sample_pow 0
    = "#" ++ toString 16 (IInt r) ++ toString 16 (IInt g) ++ toString 16 (IInt b) /\
    (String.length (colorTemperatureToRGB sample_log sample_pow 0) = 7%nat
     <-> 16 <= r /\ 16 <= g /\ 16 <= b).
Proof.
  split; [reflexivity |].
  destruct (colorTemperatureToRGB_nonnegative sample_log sample_pow
              sample_log_defined sample_pow_defined 0 eq_refl)
    as (r & g & b & _ & _ & _ & E & _ & L).
  exists r, g, b. auto.
Defined.

Lemma colorTemperatureToRGB_saturated_witness :
  is_nan 10000 = false /\
  ((exists rest, colorTemperatureToRGB sample_log sample_pow 10000 = "#ff" ++ rest) \/
   (exists front, colorTemperatureToRGB sample_log sample_pow 10000 = front ++ "ff")).
Proof.
  split; [reflexivity |].
  apply (colorTemperatureToRGB_saturated sample_log sample_pow 10000 eq_refl).
Defined.

Lemma isBrightColor_short_witness :
  (String.length "#fff" <= 5)%nat /\ isBrightColor "#fff" = false.
Proof.
  assert (H : (String.length "#fff" <= 5)%nat) by (cbn; lia).
  split; [exact H | apply (isBrightColor_short "#fff" H)].
Defined.

Lemma isBrightColor_reads_channels_witness :
  16 <= 170 <= 255 /\ 16 <= 226 <= 255 /\ 16 <= 22 <= 255 /\
  isBrightColor ("#" ++ toString 16 (IInt 170) ++ toString 16 (IInt 226)
                     ++ toString 16 (IInt 22))
  = (186 <? luminance (Number_of_Z 170) (Number_of_Z 226) (Number_of_Z 22))%float.
Proof.
  repeat (split; [lia |]).
  apply (isBrightColor_reads_channels 170 226 22); lia.
Defined.

Lemma updateProperty_other_name_witness :
  "level" <> "on" /\
  updateProperty sample_log sample_pow sample_ToNumber "level" (JNum 50) color_light
  = (Normal tt, color_light).
Proof.
  split; [discriminate |].
  apply (updateProperty_other_name sample_log sample_pow sample_ToNumber
           "level" (JNum 50) color_light); discriminate.
Defined.

Lemma updateIcon_writes_witness :
  rendered color_light = Some (mkDom "" ∅ "off" (JStr "#112233")) /\
  properties (snd (updateIcon sample_log sample_pow sample_ToNumber color_light))
  = properties color_light.
Proof.
  split; [reflexivity |].
  apply (updateIcon_writes sample_log sample_pow sample_ToNumber color_light
           (mkDom "" ∅ "off" (JStr "#112233")) eq_refl).
Defined.

Lemma updates_without_elements_witness :
  rendered svg_light = None /\
  updateColor sample_log sample_pow sample_ToNumber (JStr "#112233") svg_light
  = (Normal tt, cached "color" (JStr "#112233") svg_light) /\
  exists m, updateOn (JBool true) svg_light
            = (Throw (TypeError m), cached "on" (JBool true) svg_light).
Proof.
  split; [reflexivity |].
  destruct (updates_without_elements sample_log sample_pow sample_ToNumber
              (JStr "#112233") svg_light eq_refl) as (A & _).
  destruct (updates_without_elements sample_log sample_pow sample_ToNumber
              (JBool true) svg_light eq_refl) as (_ & _ & _ & B).
  split; [exact A | apply B; discriminate].
Defined.


Lemma setColor_echo_witness :
  rendered color_light = Some (mkDom "" ∅ "off" (JStr "#112233")) /\
  exists w' d',
    setColor_settled sample_log sample_pow sample_ToNumber
      (Fulfilled 200 (Normal {[ "color" := JStr "#ffee00" ]})) color_light
    = (Normal tt, w') /\
    rendered w' = Some d' /\ fill d' = JStr "#ffee00".
Proof.
  split; [reflexivity |].
  destruct (setColor_echo sample_log sample_pow sample_ToNumber "#ffee00"
              {[ "color" := JStr "#ffee00" ]} color_light
              (mkDom "" ∅ "off" (JStr "#112233")) eq_refl
              (fun H => False_ind _ (Bool.diff_false_true H))
              ltac:(discriminate) eq_refl)
    as (w' & d' & A & _ & _ & _ & B & C & _).
  exists w', d'. auto.
Defined.

Lemma update_off_then_color_witness :
  rendered temperature_light = Some (mkDom "white" ∅ "on" (JStr "#ffa757")) /\
  exists w2 d2,
    updateProperty sample_log sample_pow sample_ToNumber "color" (JStr "#112233")
      (snd (updateProperty sample_log sample_pow sample_ToNumber "on" (JBool false)
              temperature_light))
    = (Normal tt, w2) /\
    shownOn w2 = false /\ rendered w2 = Some d2 /\ background d2 = "".
Proof.
  split; [reflexivity |].
  destruct (update_off_then_color sample_log sample_pow sample_ToNumber "#112233"
              temperature_light (mkDom "white" ∅ "on" (JStr "#ffa757")) eq_refl
              (fun H => False_ind _ (Bool.diff_false_true H))
              ltac:(discriminate))
    as (w2 & d2 & _ & A & B & _ & _ & C & D & _).
  exists w2, d2. auto.
Defined.

Lemma updateColor_not_a_string_witness :
  truthy (JNum 5) = true /\
  exists m w',
    updateColor sample_log sample_pow sample_ToNumber (JNum 5) color_light
    = (Throw (TypeError m), w') /\
    properties w' = <["color" := JNum 5]> (properties color_light).
Proof.
  split; [reflexivity |].
  destruct (updateColor_not_a_string sample_log sample_pow sample_ToNumber
              (JNum 5) ∅ color_light (mkDom "" ∅ "off" (JStr "#112233")) eq_refl
              (fun H => False_ind _ (Bool.diff_false_true H)) eq_refl
              ltac:(discriminate))
    as ((m & w' & A & B & _) & _).
  exists m, w'. auto.
Defined.

(** An on/off bulb shown with a colour temperature and nothing cached yet. *)
Lemma updateColorTemperature_icon_witness :
  properties (with_properties ∅ temperature_light) !! "color" = None /\
  exists w' d',
    updateColorTemperature sample_log sample_pow sample_ToNumber (JStr "2700")
      (with_properties ∅ temperature_light)
    = (Normal tt, w') /\
    rendered w' = Some d' /\
    fill d' = JStr (colorTemperatureToRGB sample_log sample_pow
                      (parseInt "2700" 10)).
Proof.
  assert (N : properties (with_properties ∅ temperature_light) !! "color" = None)
    by reflexivity.
  split; [exact N |].
  destruct (updateColorTemperature_icon sample_log sample_pow sample_ToNumber
              (JStr "2700") (with_properties ∅ temperature_light)
              (mkDom "white" ∅ "on" (JStr "#ffa757")) eq_refl
              (fun H => False_ind _ (Bool.diff_false_true H)) N)
    as (w' & d' & A & _ & B & C & _).
  exists w', d'. auto.
Defined.

Lemma stale_response_overwrites_witness :
  truthy (JStr "#aa0000") = true /\
  properties
    (snd (setColor_settled sample_log sample_pow sample_ToNumber
            (Fulfilled 200 (Normal {[ "color" := JStr "#aa0000" ]}))
            (snd (updateColor sample_log sample_pow sample_ToNumber
                    (JStr "#00bb00") color_light))))
  !! "color"
  = Some (JStr "#aa0000").
Proof.
  assert (J : ({[ "color" := JStr "#aa0000" ]} : gmap string value) !! "color"
              = Some (JStr "#aa0000")) by reflexivity.
  split; [reflexivity |].
  apply (stale_response_overwrites sample_log sample_pow sample_ToNumber
           (JStr "#aa0000") (JStr "#00bb00") {[ "color" := JStr "#aa0000" ]}
           color_light eq_refl eq_refl J).
Defined.

Lemma settled_missing_key_witness :
  (∅ : gmap string value) !! "color" = None /\
  (∅ : gmap string value) !! "colorTemperature" = None /\
  setColor_settled sample_log sample_pow sample_ToNumber
    (Fulfilled 200 (Normal ∅)) color_light
  = (Normal tt, color_light) /\
  properties
    (snd (setColorTemperature_settled sample_log sample_pow sample_ToNumber
            (Fulfilled 200 (Normal ∅)) temperature_light))
  !! "colorTemperature"
  = Some JUndefined.
Proof.
  assert (A : (∅ : gmap string value) !! "color" = None) by reflexivity.
  assert (B : (∅ : gmap string value) !! "colorTemperature" = None)
    by reflexivity.
  split; [exact A |]. split; [exact B |]. split.
  - apply (proj1 (settled_missing_key sample_log sample_pow sample_ToNumber
                    ∅ color_light) A).
  - apply (proj2 (settled_missing_key sample_log sample_pow sample_ToNumber
                    ∅ temperature_light) B).
Defined.

(** A bulb described with [on], [color] and [colorTemperature]. *)
Lemma construct_displayedProperties_exclusive_witness :
  let props : gmap string string :=
    {[ "on" := "/things/lamp/properties/on";
       "color" := "/things/lamp/properties/color";
       "colorTemperature" := "/things/lamp/properties/colorTemperature" ]} in
  exists displayed,
    construct_displayedProperties (Some props) ∅ = Normal displayed /\
    displayed !! "color" = Some "/things/lamp/properties/color" /\
    displayed !! "colorTemperature" = None.
Proof.
  intros props.
  destruct (construct_displayedProperties (Some props) ∅) as [displayed | e] eqn:E;
    [| vm_compute in E; discriminate].
  destruct (construct_displayedProperties_exclusive ∅ props) as (_ & H).
  destruct (H displayed E) as (_ & _ & C & T & _).
  exists displayed. split; [reflexivity |]. split.
  - rewrite C. reflexivity.
  - rewrite T. reflexivity.
Defined.

Lemma iconView_after_updateOn_witness :
  properties svg_light !! "on" = None /\
  iconView sample_log sample_pow sample_ToNumber (fun _ => "NaN") "</div>" svg_light
  = "<div class=" ++ dq ++ "color-light" ++ dq ++ " style=" ++ dq ++ dq ++ ">"
      ++ "</div>".
Proof.
  assert (A : properties svg_light !! "on" = None) by reflexivity.
  split; [exact A |].
  apply (proj1 (iconView_after_updateOn sample_log sample_pow sample_ToNumber
                  (fun _ => "NaN") "</div>" JNull svg_light) A).
Defined.

(** ** The brightness test and the luminance of the specification *)

Lemma luminance_agrees_checked : agree_on channel_values = true.
Proof. vm_cast_no_check (eq_refl true). Qed.

Lemma channel_values_In (z : Z) :
  0 <= z <= 255 -> In (z, Number_of_Z z) channel_values.
Proof.
  intros H. unfold channel_values.
  replace z with (Z.of_nat (Z.to_nat z)) at 1 2 by lia.
  apply (in_map (fun n => (Z.of_nat n, Number_of_Z (Z.of_nat n)))).
  apply in_seq. lia.
Qed.

Lemma agree_on_In (cs : list (Z * float)) (r g b : Z) (fr fg fb : float) :
  agree_on cs = true -> In (r, fr) cs -> In (g, fg) cs -> In (b, fb) cs ->
  Bool.eqb (186 <? luminance fr fg fb)%float
    ((186000 <? exact_luminance_1000 r g b)
     || ((r =? 170) && (g =? 226) && (b =? 22))) = true.
Proof.
  intros H Hr Hg Hb. unfold agree_on in H. cbv zeta in H.
  rewrite forallb_forall in H. specialize (H _ Hr). cbv beta in H.
  rewrite forallb_forall in H. specialize (H _ Hg). cbv beta in H.
  rewrite forallb_forall in H.
  apply (H (b, 114 * b, (fb * 0.114)%float)).
  apply (in_map (fun c => (fst c, 114 * fst c, (snd c * 0.114)%float)) cs (b, fb)).
  exact Hb.
Qed.

(** On channel values from 0 to 255 the binary64 test and the exact one
    differ at [#aae216] only. *)
Lemma luminance_agrees_channels (r g b : Z) :
  0 <= r <= 255 -> 0 <= g <= 255 -> 0 <= b <= 255 ->
  luminance_agrees r g b = true.
Proof.
  intros Hr Hg Hb.
  exact (agree_on_In channel_values r g b _ _ _ luminance_agrees_checked
           (channel_values_In r Hr) (channel_values_In g Hg)
           (channel_values_In b Hb)).
Qed.

Lemma bright_exact (r g b : Z) :
  0 <= r <= 255 -> 0 <= g <= 255 -> 0 <= b <= 255 ->
  (186 <? luminance (Number_of_Z r) (Number_of_Z g) (Number_of_Z b))%float = true
  <-> 186000 < exact_luminance_1000 r g b \/ (r, g, b) = (170, 226, 22).
Proof.
  intros Hr Hg Hb. pose proof (luminance_agrees_channels r g b Hr Hg Hb) as H.
  unfold luminance_agrees in H. apply Bool.eqb_prop in H. rewrite H.
  rewrite orb_true_iff, !andb_true_iff, Z.ltb_lt, !Z.eqb_eq.
  split; (intros [L | E]; [now left | right]).
  - destruct E as [[-> ->] ->]. reflexivity.
  - injection E as -> -> ->. auto.
Qed.

(** ** The update contract, case by case *)

Section WidgetContract.

Variable Math_log : float -> float.
Variable Math_pow : float -> float -> float.
Variable ToNumber_other : value -> float.

#[local] Abbreviation getIconColor_ :=
  (getIconColor Math_log Math_pow ToNumber_other).
#[local] Abbreviation updateIcon_ :=
  (updateIcon Math_log Math_pow ToNumber_other).
#[local] Abbreviation updateColor_ :=
  (updateColor Math_log Math_pow ToNumber_other).
#[local] Abbreviation updateColorTemperature_ :=
  (updateColorTemperature Math_log Math_pow ToNumber_other).

(** Whether the detail of [name] can be refreshed: always outside the
    ['htmlDetail'] format, and within it when [name] is displayed. *)
Lemma detail_guard (name : string) (w : ColorLight) :
  (is_htmlDetail w && negb (bool_decide (is_Some (displayedProperties w !! name)))
   = true
   <-> is_htmlDetail w = true /\ displayedProperties w !! name = None) /\
  (is_htmlDetail w && negb (bool_decide (is_Some (displayedProperties w !! name)))
   = false
   <-> (is_htmlDetail w = true -> is_Some (displayedProperties w !! name))).
Proof.
  destruct (is_htmlDetail w); cbn [andb].
  - destruct (displayedProperties w !! name) as [h |] eqn:E.
    + rewrite bool_decide_eq_true_2 by eauto. cbn [negb].
      split; split; try easy; try (intros [_ ?]; discriminate); eauto.
    + rewrite bool_decide_eq_false_2 by (intros [? ?]; discriminate). cbn [negb].
      split; split; try easy;
        try (intros H; destruct (H eq_refl); discriminate).
  - split; split; try easy; try (intros [? _]; discriminate).
Qed.

(** C3, amended: on a rendered widget [updateOn] never looks at the icon
    colour: the icon fill and the class list are as before on every path.
    With [null] it only caches the value. With any other value it caches
    it and labels the bulb [on] or [off]; then, in the ['htmlDetail'] format
    without a displayed [on], the read of its detail throws a [TypeError]
    and the background and the on state stay as they were; otherwise it
    sets the background to the literal ['white'] for a truthy value, clears
    it for a falsy one, and shows the on or the off state. *)
Theorem updateOn_display (on : value) (w : ColorLight) (d : Dom) :
  rendered w = Some d ->
  (on = JNull -> updateOn on w = (Normal tt, cached "on" JNull w)) /\
  (on <> JNull ->
   let onoff := if truthy on then "on" else "off" in
   (is_htmlDetail w = true -> displayedProperties w !! "on" = None ->
    exists m,
      updateOn on w
      = (Throw (TypeError m),
         with_rendered (mkDom (background d) (classList d) onoff (fill d))
           (cached "on" on w))) /\
   ((is_htmlDetail w = true -> is_Some (displayedProperties w !! "on")) ->
    exists w',
      updateOn on w = (Normal tt, w') /\
      properties w' = <["on" := on]> (properties w) /\
      shownOn w' = truthy on /\
      rendered w' =
        Some (mkDom (if truthy on then "white" else "") (classList d) onoff
                (fill d)))).
Proof.
  intros Hd. split.
  - intros ->. reflexivity.
  - intros Hn. cbv zeta. rewrite updateOn_cases, Hd. cbv zeta.
    destruct (detail_guard "on" w) as [T F].
    split.
    + intros Hf Hnone. rewrite (proj2 T (conj Hf Hnone)).
      destruct on; try congruence; eexists; reflexivity.
    + intros Hdetail. rewrite (proj2 F Hdetail).
      destruct on; try congruence; eexists;
        (split; [reflexivity |]); repeat split;
        cbn [properties shownOn with_shownOn with_rendered];
        now rewrite ?detail_refreshed_properties.
Qed.

(** C5, amended: after [updateIcon] has run, the class ['bright-color']
    is on the bulb exactly when [r * 0.299 + g * 0.587 + b * 0.114 > 186]
    as the code evaluates it, in binary64, for the three channels parsed
    from the icon colour; so [#ffffff] is bright and [#000000] and
    [#ff0000] are not. For channels from 0 to 255 that is the test of the
    exact luminance, except at [#aae216], whose exact luminance is 186 and
    which is bright. *)
Theorem updateIcon_bright_color (w w' : ColorLight) :
  updateIcon_ w = (Normal tt, w') ->
  exists c d',
    getIconColor_ w = JStr c /\ rendered w' = Some d' /\
    let r := parseInt (substr c 1 2) 16 in
    let g := parseInt (substr c 3 2) 16 in
    let b := parseInt (substr c 5 2) 16 in
    ("bright-color" ∈ classList d' <->
     (186 <? r * 0.299 + g * 0.587 + b * 0.114)%float = true) /\
    (c = "#ffffff" -> "bright-color" ∈ classList d') /\
    (c = "#000000" \/ c = "#ff0000" -> "bright-color" ∉ classList d') /\
    (forall R G B,
       0 <= R <= 255 -> 0 <= G <= 255 -> 0 <= B <= 255 ->
       r = Number_of_Z R -> g = Number_of_Z G -> b = Number_of_Z B ->
       ("bright-color" ∈ classList d' <->
        186000 < exact_luminance_1000 R G B \/ (R, G, B) = (170, 226, 22))).
Proof.
  intros H.
  destruct (updateIcon_normal Math_log Math_pow ToNumber_other w w' H)
    as (d & c & Hd & Hc).
  rewrite (updateIcon_string Math_log Math_pow ToNumber_other w d c Hd Hc) in H.
  apply (f_equal snd) in H. cbn [snd] in H. subst w'.
  exists c. eexists. split; [exact Hc |]. split; [reflexivity |].
  cbn [classList]. cbv zeta.
  fold (luminance (parseInt (substr c 1 2) 16) (parseInt (substr c 3 2) 16)
          (parseInt (substr c 5 2) 16)).
  fold (isBrightColor c).
  assert (A : "bright-color" ∈ (if isBrightColor c
                then classList d ∪ {["bright-color"]}
                else classList d ∖ {["bright-color"]}) <-> isBrightColor c = true).
  { destruct (isBrightColor c); split; try easy.
    - intros _. apply elem_of_union. right. now apply elem_of_singleton.
    - intros [_ Hn]%elem_of_difference. exfalso. apply Hn.
      now apply elem_of_singleton. }
  split; [exact A |]. split; [| split].
  - intros ->. apply A. reflexivity.
  - intros [-> | ->]; rewrite A; discriminate.
  - intros R G B HR HG HB Er Eg Eb. rewrite A. unfold isBrightColor.
    rewrite Er, Eg, Eb. now apply bright_exact.
Qed.

(** C8, amended: [updateColor] with a falsy value changes nothing at all.
    With a truthy value it caches the colour, and then: without elements
    it returns; in the ['htmlDetail'] format without a displayed [color]
    the read of its detail throws a [TypeError], the icon untouched;
    otherwise the detail is refreshed, and a string colour fills the icon
    and sets or clears ['bright-color'] by its brightness, while any other
    truthy value is assigned to the fill and a [TypeError] is thrown with
    the class list as it was. *)
Theorem updateColor_guard (v : value) (w : ColorLight) :
  (truthy v = false -> updateColor_ v w = (Normal tt, w)) /\
  (truthy v = true ->
   properties (snd (updateColor_ v w)) = <["color" := v]> (properties w) /\
   (rendered w = None -> updateColor_ v w = (Normal tt, cached "color" v w)) /\
   forall d,
     rendered w = Some d ->
     (is_htmlDetail w = true -> displayedProperties w !! "color" = None ->
      exists m, updateColor_ v w = (Throw (TypeError m), cached "color" v w)) /\
     ((is_htmlDetail w = true -> is_Some (displayedProperties w !! "color")) ->
      let w1 := detail_refreshed "color" (cached "color" v w) in
      (forall c,
         v = JStr c ->
         updateColor_ v w
         = (Normal tt,
            with_rendered
              (mkDom (background d)
                 (if isBrightColor c then classList d ∪ {["bright-color"]}
                  else classList d ∖ {["bright-color"]})
                 (textContent d) (JStr c)) w1)) /\
      ((forall c, v <> JStr c) ->
       exists m,
         updateColor_ v w
         = (Throw (TypeError m),
            with_rendered (mkDom (background d) (classList d) (textContent d) v)
              w1)))).
Proof.
  split; intros Hv.
  - unfold updateColor. rewrite Hv. reflexivity.
  - split; [now rewrite updateColor_properties, Hv |].
    rewrite updateColor_truthy by assumption.
    split; [now intros -> |]. intros d Hd. rewrite Hd.
    destruct (detail_guard "color" w) as [T F]. split.
    + intros Hf Hnone. rewrite (proj2 T (conj Hf Hnone)). eauto.
    + intros Hdetail. rewrite (proj2 F Hdetail). cbv zeta.
      assert (Hr : rendered (detail_refreshed "color" (cached "color" v w))
                   = Some d) by now rewrite detail_refreshed_rendered.
      assert (Hc : getIconColor_ (detail_refreshed "color" (cached "color" v w))
                   = v).
      { apply getIconColor_cached_color.
        rewrite detail_refreshed_properties. apply lookup_insert_eq. }
      rewrite updateIcon_cases, Hr, Hc. split.
      * intros c ->. reflexivity.
      * intros Hs. destruct v; try (eexists; reflexivity). now destruct (Hs s).
Qed.

(** C10, amended: [updateColorTemperature] has no guard on the value:
    whatever the value, what it caches is the value itself, or for a string
    its [parseInt(_, 10)], be it [0] or NaN. The icon is recomputed only on
    a rendered widget whose colour temperature detail can be refreshed:
    there the fill becomes the icon colour of the new cache, which without
    a cached colour is the conversion of the new value, and for a string
    icon colour ['bright-color'] is set or cleared by its brightness.
    Without elements only the cache changes, and in the ['htmlDetail']
    format without a displayed [colorTemperature] a [TypeError] is thrown
    after caching, the icon untouched. *)
Theorem updateColorTemperature_unguarded (v : value) (w : ColorLight) :
  let parsed := match v with JStr s => JNum (parseInt s 10) | _ => v end in
  let w1 := cached "colorTemperature" parsed w in
  properties (snd (updateColorTemperature_ v w))
  = <["colorTemperature" := parsed]> (properties w) /\
  properties (snd (updateColorTemperature_ (JNum 0) w)) !! "colorTemperature"
  = Some (JNum 0) /\
  properties (snd (updateColorTemperature_ (JStr "warm") w)) !! "colorTemperature"
  = Some (JNum nan) /\
  (rendered w = None -> updateColorTemperature_ v w = (Normal tt, w1)) /\
  forall d,
    rendered w = Some d ->
    (is_htmlDetail w = true -> displayedProperties w !! "colorTemperature" = None ->
     exists m, updateColorTemperature_ v w = (Throw (TypeError m), w1)) /\
    ((is_htmlDetail w = true ->
      is_Some (displayedProperties w !! "colorTemperature")) ->
     let w2 := detail_refreshed "colorTemperature" w1 in
     (properties w !! "color" = None ->
      getIconColor_ w1
      = JStr (colorTemperatureToRGB Math_log Math_pow
                (ToNumber ToNumber_other parsed))) /\
     (forall c,
        getIconColor_ w1 = JStr c ->
        updateColorTemperature_ v w
        = (Normal tt,
           with_rendered
             (mkDom (background d)
                (if isBrightColor c then classList d ∪ {["bright-color"]}
                 else classList d ∖ {["bright-color"]})
                (textContent d) (JStr c)) w2)) /\
     ((forall c, getIconColor_ w1 <> JStr c) ->
      exists m,
        updateColorTemperature_ v w
        = (Throw (TypeError m),
           with_rendered
             (mkDom (background d) (classList d) (textContent d)
                (getIconColor_ w1)) w2))).
Proof.
  cbv zeta. split; [apply updateColorTemperature_properties |].
  split; [now rewrite updateColorTemperature_properties, lookup_insert_eq |].
  split; [now rewrite updateColorTemperature_properties, lookup_insert_eq |].
  rewrite updateColorTemperature_cases. cbv zeta.
  set (parsed := match v with JStr s => JNum (parseInt s 10) | _ => v end).
  split; [now intros -> |]. intros d Hd. rewrite Hd.
  destruct (detail_guard "colorTemperature" w) as [T F]. split.
  - intros Hf Hnone. rewrite (proj2 T (conj Hf Hnone)). eauto.
  - intros Hdetail. rewrite (proj2 F Hdetail).
    set (w1 := cached "colorTemperature" parsed w).
    assert (Hr : rendered (detail_refreshed "colorTemperature" w1) = Some d)
      by now rewrite detail_refreshed_rendered.
    assert (Hc : getIconColor_ (detail_refreshed "colorTemperature" w1)
                 = getIconColor_ w1).
    { apply getIconColor_cache. apply detail_refreshed_properties. }
    rewrite updateIcon_cases, Hr, Hc. split; [| split].
    + intros Hnone. rewrite getIconColor_no_color.
      * unfold w1, cached. cbn [properties with_properties].
        now rewrite lookup_insert_eq.
      * unfold w1, cached. cbn [properties with_properties].
        now rewrite lookup_insert_ne by discriminate.
    + intros c ->. reflexivity.
    + intros Hs. destruct (getIconColor_ w1) as [| | | | c |];
        try (eexists; reflexivity). now destruct (Hs c).
Qed.

End WidgetContract.

(** ** The requests of the set operations *)

Section RequestBody.

Variable API_headers : gmap string string.
Variable Number_toString : float -> string.
Variable SerializeJSON_object : nat -> completion (option string).

#[local] Abbreviation JSON_stringify_ :=
  (JSON_stringify Number_toString SerializeJSON_object).

(** A string without control characters, quotes and backslashes is
    quoted as it is. *)
Lemma quote_units_plain (s : string) :
  forallb is_plain (list_ascii_of_string s) = true -> quote_units s = s.
Proof.
  induction s as [| c s IH]; [reflexivity |].
  cbn [list_ascii_of_string forallb quote_units].
  intros [Hc Hs]%andb_true_iff. rewrite (IH Hs).
  unfold is_plain in Hc. unfold quote_unit.
  destruct (N_of_ascii c) as [| p] eqn:E; [discriminate |].
  apply andb_true_iff in Hc as [[H32 H34]%andb_true_iff H92].
  apply N.leb_le in H32. apply negb_true_iff in H34, H92.
  rewrite H34, H92.
  rewrite !(proj2 (N.eqb_neq _ _)) by lia.
  rewrite (proj2 (N.ltb_ge _ _)) by lia. reflexivity.
Qed.

(** The text of a payload with one entry. *)
Lemma JSON_stringify_entry (key : string) (v : value) (text : string) :
  SerializeJSONProperty Number_toString SerializeJSON_object v
  = Normal (Some text) ->
  JSON_stringify_ [(key, v)]
  = Normal ("{" ++ QuoteJSONString key ++ ":" ++ text ++ "}").
Proof.
  intros H. unfold JSON_stringify. cbn [SerializeJSONObject_members].
  rewrite H. cbn [String.concat]. now rewrite !string_app_assoc.
Qed.


End RequestBody.

(** ** The amended properties at sample inputs *)

(** C5 as stated fails at [#aae216]: its exact luminance is 186, which
    does not exceed 186, and [updateIcon] adds ['bright-color']. *)
Lemma updateIcon_bright_at_luminance_186 :
  let w := cached "color" (JStr "#aae216") color_light in
  let w' := snd (updateIcon sample_log sample_pow sample_ToNumber w) in
  getIconColor sample_log sample_pow sample_ToNumber w = JStr "#aae216" /\
  parseInt (substr "#aae216" 1 2) 16 = Number_of_Z 170 /\
  parseInt (substr "#aae216" 3 2) 16 = Number_of_Z 226 /\
  parseInt (substr "#aae216" 5 2) 16 = Number_of_Z 22 /\
  exact_luminance_1000 170 226 22 = 186 * 1000 /\
  fst (updateIcon sample_log sample_pow sample_ToNumber w) = Normal tt /\
  exists d', rendered w' = Some d' /\ "bright-color" ∈ classList d'.
Proof.
  cbv zeta. repeat (split; [vm_compute; reflexivity |]).
  assert (R : rendered (cached "color" (JStr "#aae216") color_light)
              = Some (mkDom "" ∅ "off" (JStr "#112233"))) by reflexivity.
  rewrite (updateIcon_string sample_log sample_pow sample_ToNumber _ _
             "#aae216" R) by (vm_compute; reflexivity).
  eexists. split; [reflexivity |]. cbn [classList].
  replace (isBrightColor "#aae216") with true by (vm_compute; reflexivity).
  apply elem_of_union. right. now apply elem_of_singleton.
Qed.

(** C8 as stated fails for the truthy value [5]: on the bulb showing the
    bright [#ffffff], [updateColor(5)] caches it and assigns it to the icon
    fill, then throws; the class list is the one of the colour before. *)
Lemma updateColor_number_leaves_class :
  let r := updateColor sample_log sample_pow sample_ToNumber (JNum 5) bright_light in
  truthy (JNum 5) = true /\
  (exists m, fst r = Throw (TypeError m)) /\
  properties (snd r) !! "color" = Some (JNum 5) /\
  rendered (snd r) = Some (mkDom "white" {[ "bright-color" ]} "on" (JNum 5)) /\
  (classList <$> rendered (snd r)) = (classList <$> rendered bright_light).
Proof.
  cbv zeta. split; [reflexivity |]. split.
  - vm_compute. eexists. reflexivity.
  - repeat split; vm_compute; reflexivity.
Qed.

(** C10 as stated fails where there is no icon to recompute and where the
    detail is missing: in the ['svg'] format the update only caches the
    value; in the detail view of a bulb that displays [color] it throws
    after caching, and the icon keeps its fill [#ffffff] although the icon
    colour of the new cache is [#ffa757]. *)
Lemma updateColorTemperature_without_recomputation :
  let r := updateColorTemperature sample_log sample_pow sample_ToNumber
             (JNum 2700) detail_light in
  updateColorTemperature sample_log sample_pow sample_ToNumber (JNum 2700) svg_light
  = (Normal tt, cached "colorTemperature" (JNum 2700) svg_light) /\
  rendered (cached "colorTemperature" (JNum 2700) svg_light) = None /\
  (exists m, fst r = Throw (TypeError m)) /\
  properties (snd r) !! "colorTemperature" = Some (JNum 2700) /\
  getIconColor sample_log sample_pow sample_ToNumber (snd r) = JStr "#ffa757" /\
  rendered (snd r) = rendered detail_light /\
  (fill <$> rendered detail_light) = Some (JStr "#ffffff").
Proof.
  cbv zeta. rewrite !updateColorTemperature_cases. cbv zeta.
  change (rendered svg_light) with (@None Dom).
  change (rendered detail_light)
    with (Some (mkDom "" (∅ : gset string) "off" (JStr "#ffffff"))).
  replace (is_htmlDetail detail_light
           && negb (bool_decide
                      (is_Some (displayedProperties detail_light !! "colorTemperature"))))
    with true by (vm_compute; reflexivity).
  cbn [fst snd]. split; [reflexivity |]. split; [reflexivity |].
  split; [eauto |]. split; [apply lookup_insert_eq |].
  split; [| split; reflexivity].
  rewrite getIconColor_no_color by reflexivity.
  cbn [cached properties with_properties]. rewrite lookup_insert_eq.
  vm_compute. reflexivity.
Qed.

Lemma updateOn_display_witness :
  rendered color_light = Some (mkDom "" ∅ "off" (JStr "#112233")) /\
  rendered bare_detail_light = Some (mkDom "" ∅ "off" (JStr "#ffffff")) /\
  (exists w',
     updateOn (JBool true) color_light = (Normal tt, w') /\
     properties w' = <["on" := JBool true]> (properties color_light) /\
     shownOn w' = true /\
     rendered w' = Some (mkDom "white" ∅ "on" (JStr "#112233"))) /\
  exists m,
    updateOn (JBool true) bare_detail_light
    = (Throw (TypeError m),
       with_rendered (mkDom "" ∅ "on" (JStr "#ffffff"))
         (cached "on" (JBool true) bare_detail_light)).
Proof.
  split; [reflexivity |]. split; [reflexivity |]. split.
  - apply (proj2 (proj2 (updateOn_display (JBool true) color_light
                           (mkDom "" ∅ "off" (JStr "#112233")) eq_refl)
                    ltac:(discriminate))
             (fun H => False_ind _ (Bool.diff_false_true H))).
  - assert (N : displayedProperties bare_detail_light !! "on" = None)
      by reflexivity.
    apply (proj1 (proj2 (updateOn_display (JBool true) bare_detail_light
                           (mkDom "" ∅ "off" (JStr "#ffffff")) eq_refl)
                    ltac:(discriminate)) eq_refl N).
Defined.

Lemma updateIcon_bright_color_witness :
  updateIcon sample_log sample_pow sample_ToNumber bright_light
  = (Normal tt, bright_light) /\
  exists d',
    rendered bright_light = Some d' /\ "bright-color" ∈ classList d'.
Proof.
  assert (E : updateIcon sample_log sample_pow sample_ToNumber bright_light
              = (Normal tt, bright_light)).
  { assert (R : rendered bright_light
                = Some (mkDom "white" {[ "bright-color" ]} "on" (JStr "#ffffff")))
      by reflexivity.
    rewrite (updateIcon_string sample_log sample_pow sample_ToNumber bright_light
               _ "#ffffff" R) by (vm_compute; reflexivity).
    replace (isBrightColor "#ffffff") with true by (vm_compute; reflexivity).
    unfold bright_light, with_rendered. cbn.
    now rewrite (idemp_L (∪) ({[ "bright-color" ]} : gset string)). }
  split; [exact E |].
  destruct (updateIcon_bright_color sample_log sample_pow sample_ToNumber
              bright_light bright_light E) as (c & d' & Hc & Hd & _ & Hw & _).
  exists d'. split; [exact Hd |]. apply Hw.
  assert (G : getIconColor sample_log sample_pow sample_ToNumber bright_light
              = JStr "#ffffff") by (vm_compute; reflexivity).
  rewrite G in Hc. now injection Hc as <-.
Defined.

Lemma updateColor_guard_witness :
  updateColor sample_log sample_pow sample_ToNumber (JStr "") color_light
  = (Normal tt, color_light) /\
  rendered color_light = Some (mkDom "" ∅ "off" (JStr "#112233")) /\
  updateColor sample_log sample_pow sample_ToNumber (JStr "#ffee00") color_light
  = (Normal tt,
     with_rendered
       (mkDom ""
          (if isBrightColor "#ffee00" then ∅ ∪ {[ "bright-color" ]}
           else ∅ ∖ {[ "bright-color" ]})
          "off" (JStr "#ffee00"))
       (detail_refreshed "color" (cached "color" (JStr "#ffee00") color_light))).
Proof.
  destruct (updateColor_guard sample_log sample_pow sample_ToNumber
              (JStr "") color_light) as [A _].
  destruct (updateColor_guard sample_log sample_pow sample_ToNumber
              (JStr "#ffee00") color_light) as [_ B].
  split; [exact (A eq_refl) |]. split; [reflexivity |].
  destruct (B eq_refl) as (_ & _ & C).
  destruct (C (mkDom "" ∅ "off" (JStr "#112233")) eq_refl) as [_ D].
  apply (proj1 (D (fun H => False_ind _ (Bool.diff_false_true H))) "#ffee00" eq_refl).
Defined.

Lemma updateColorTemperature_unguarded_witness :
  rendered temperature_light = Some (mkDom "white" ∅ "on" (JStr "#ffa757")) /\
  getIconColor sample_log sample_pow sample_ToNumber
    (cached "colorTemperature" (JNum (parseInt "1900" 10)) temperature_light)
  = JStr "#ff840" /\
  updateColorTemperature sample_log sample_pow sample_ToNumber (JStr "1900")
    temperature_light
  = (Normal tt,
     with_rendered
       (mkDom "white"
          (if isBrightColor "#ff840" then ∅ ∪ {[ "bright-color" ]}
           else ∅ ∖ {[ "bright-color" ]})
          "on" (JStr "#ff840"))
       (detail_refreshed "colorTemperature"
          (cached "colorTemperature" (JNum (parseInt "1900" 10))
             temperature_light))).
Proof.
  assert (G : getIconColor sample_log sample_pow sample_ToNumber
                (cached "colorTemperature" (JNum (parseInt "1900" 10))
                   temperature_light)
              = JStr "#ff840") by (vm_compute; reflexivity).
  split; [reflexivity |]. split; [exact G |].
  destruct (updateColorTemperature_unguarded sample_log sample_pow sample_ToNumber
              (JStr "1900") temperature_light) as (_ & _ & _ & _ & C).
  destruct (C (mkDom "white" ∅ "on" (JStr "#ffa757")) eq_refl) as [_ D].
  apply (proj1 (proj2 (D (fun H => False_ind _ (Bool.diff_false_true H))))
           "#ff840" G).
Defined.

